(** * Carla CIL training script: metric accumulator, loss engine, epoch
      runners and orchestrator

    A shallow embedding of [helper.py] and [main.py].

    Number model.  Tensor entries, losses and accumulator fields are Python
    and torch floating-point numbers; they are embedded as real numbers
    ([R]), so loss identities are statements of exact arithmetic.  The
    orchestrator only compares metrics and takes their minimum, which
    binary64 does exactly, so its metrics are primitive floats ([float])
    and [math.inf] is [infinity].

    Names.  Each function is embedded from its own body.  The global
    [args] namespace is a record holding the attributes the functions
    read, under the names they read them. *)

From Stdlib Require Import Reals Lra Lia ZArith List Ascii String Floats DecimalString.
From Stdlib Require Import DecimalPos DecimalZ.
From stdpp Require Import gmap strings.
Import ListNotations.

Set Default Proof Using "Type".

(** ** Exceptions and results *)

Inductive exn : Type :=
| ZeroDivisionError
| ValueError
| RuntimeError
| KeyError (key : string)
| OSError (kind : string).

Inductive result (A : Type) : Type :=
| Ok (a : A)
| Raise (e : exn).
Arguments Ok {A} a.
Arguments Raise {A} e.

#[global] Instance result_ret : MRet result := fun _ a => Ok a.

#[global] Instance result_bind : MBind result := fun _ _ k r =>
  match r with
  | Ok a => k a
  | Raise e => Raise e
  end.

(** ** helper.py: [AverageMeter] *)

Module AverageMeter.
Local Open Scope R_scope.

Record t : Type := mk { val : R; avg : R; sum : R; count : R }.

(** [reset]: all four fields become zero. [__init__] only calls [reset]. *)
Definition reset : t := {| val := 0; avg := 0; sum := 0; count := 0 |}.

(** [update(val, n)]: the three assignments, then [sum / count], which
    raises [ZeroDivisionError] when the new count is zero. *)
Definition update (m : t) (v n : R) : result t :=
  let s := sum m + v * n in
  let c := count m + n in
  if Req_dec_T c 0 then Raise ZeroDivisionError
  else Ok {| val := v; avg := s / c; sum := s; count := c |}.

(** A sequence of [update] calls, in order; the first exception stops it. *)
Fixpoint updates (m : t) (l : list (R * R)) : result t :=
  match l with
  | [] => Ok m
  | (v, n) :: l' =>
      match update m v n with
      | Ok m' => updates m' l'
      | Raise e => Raise e
      end
  end.

(** The quantities the contract speaks of. *)
Fixpoint weighted_sum (l : list (R * R)) : R :=
  match l with
  | [] => 0
  | (v, n) :: l' => v * n + weighted_sum l'
  end.

Fixpoint weight_total (l : list (R * R)) : R :=
  match l with
  | [] => 0
  | (_, n) :: l' => n + weight_total l'
  end.

Definition last_value (l : list (R * R)) : R := List.last (map fst l) 0.

Definition positive_weights (l : list (R * R)) : Prop :=
  Forall (fun p => 0 < snd p) l.

End AverageMeter.

(** ** Tensors

    A tensor is a two-dimensional array (batch rows, feature columns) of
    reals: its shape and its entries.  Binary operations follow torch
    broadcasting: along each dimension the sizes agree or one of them is
    one, otherwise the operation raises [RuntimeError]. *)

Module Tensor.
Local Open Scope R_scope.

Record t : Type := mk { rows : nat; cols : nat; data : nat -> nat -> R }.

(** Entry [(i, j)] as a broadcast operand reads it: a dimension of size one
    is repeated. *)
Definition get (x : t) (i j : nat) : R :=
  data x (if Nat.eqb (rows x) 1 then 0%nat else i)
         (if Nat.eqb (cols x) 1 then 0%nat else j).

Definition broadcast_dim (a b : nat) : result nat :=
  if Nat.eqb a b then Ok a
  else if Nat.eqb a 1 then Ok b
  else if Nat.eqb b 1 then Ok a
  else Raise RuntimeError.

Definition zip (f : R -> R -> R) (x y : t) : result t :=
  r ← broadcast_dim (rows x) (rows y);
  c ← broadcast_dim (cols x) (cols y);
  mret (mk r c (fun i j => f (get x i j) (get y i j))).

Definition map (f : R -> R) (x : t) : t :=
  mk (rows x) (cols x) (fun i j => f (data x i j)).

(** [x - y], [x + y], [x * y] on tensors; [-x]; [x * k] for a Python
    number [k]; [torch.exp]; [torch.pow(x, 2)]. *)
Definition sub : t -> t -> result t := zip Rminus.
Definition add : t -> t -> result t := zip Rplus.
Definition mul : t -> t -> result t := zip Rmult.
Definition neg : t -> t := map Ropp.
Definition scale (x : t) (k : R) : t := map (fun v => v * k) x.
Definition exp : t -> t := map Rtrigo_def.exp.
Definition pow2 : t -> t := map (fun v => v ^ 2).

Fixpoint rsum (n : nat) (f : nat -> R) : R :=
  match n with
  | O => 0
  | S k => rsum k f + f k
  end.

Definition total (x : t) : R :=
  rsum (rows x) (fun i => rsum (cols x) (fun j => data x i j)).

(** [torch.mean]: the sum of all entries over their number.  (For an empty
    tensor torch gives nan; here the quotient by zero.) *)
Definition mean (x : t) : R := total x / INR (rows x * cols x).

(** [nn.MSELoss()] with its default mean reduction. *)
Definition MSELoss (input target : t) : result R :=
  d ← sub input target;
  mret (mean (pow2 d)).

Definition has_shape (x : t) (r c : nat) : Prop := rows x = r /\ cols x = c.

(** [x] can be broadcast against a tensor of shape [(r, c)] without
    changing that shape. *)
Definition fits (x : t) (r c : nat) : Prop :=
  (rows x = r \/ rows x = 1%nat) /\ (cols x = c \/ cols x = 1%nat).

(** The constant tensor of a given shape. *)
Definition const (r c : nat) (v : R) : t := mk r c (fun _ _ => v).

(** Every entry of the tensor is zero. *)
Definition all_zero (x : t) : Prop := forall i j, data x i j = 0.

End Tensor.

(** ** The configuration namespace [args]

    The attributes read by [main] from the resume logic on, by [train] and
    by [evaluate], under the names the code reads them.  Device indices are
    left out: moving a tensor to a device does not change its value. *)

Module Args.
Record t : Type := mk {
  speed_weight : R;
  branch_weight : R;
  id : string;
  epochs : Z;
  start_epoch : Z;
  batch_size : Z;
  bacth_size : Z;
  print_freq : Z;
  resume : string;
  evaluate : bool;
  evaluate_log : string;
  net_structure : Z
}.
End Args.

(** ** main.py: the loss computations of [train] and [evaluate] *)

Module Loss.
Local Open Scope R_scope.

(** What one batch contributes: the three losses and the three diagnostics
    of the uncertainty model. *)
Record t : Type := mk {
  branch_loss : R;
  speed_loss : R;
  uncertain_loss : R;
  ori_loss : R;
  uncertain_control_mean : R;
  uncertain_speed_mean : R
}.

(** [train], the branch for [args.net_structure != 1] (four model outputs),
    up to the accumulator updates. *)
Definition train_uncertain (args : Args.t)
    (branches_out pred_speed log_var_control log_var_speed : Tensor.t)
    (speed target mask : Tensor.t) : result t :=
  d ← Tensor.sub branches_out target;
  let branch_square := Tensor.pow2 d in
  w ← Tensor.mul (Tensor.exp (Tensor.neg log_var_control)) branch_square;
  s ← Tensor.add w log_var_speed;
  m ← Tensor.mul (Tensor.scale s 0.5) mask;
  let branch_loss := Tensor.mean m * 4 in
  ds ← Tensor.sub pred_speed speed;
  let speed_square := Tensor.pow2 ds in
  ws ← Tensor.mul (Tensor.exp (Tensor.neg log_var_speed)) speed_square;
  ss ← Tensor.add ws log_var_speed;
  let speed_loss := Tensor.mean (Tensor.scale ss 0.5) in
  let uncertain_loss :=
    Args.branch_weight args * branch_loss + Args.speed_weight args * speed_loss in
  om ← Tensor.mul branch_square mask;
  let ori_loss :=
    Args.branch_weight args * Tensor.mean (Tensor.scale om 4)
    + Args.speed_weight args * Tensor.mean speed_square in
  cm ← Tensor.mul (Tensor.exp log_var_control) mask;
  let uncertain_control_mean := Tensor.mean (Tensor.scale cm 4) in
  let uncertain_speed_mean := Tensor.mean (Tensor.exp log_var_speed) in
  mret (mk branch_loss speed_loss uncertain_loss
           ori_loss uncertain_control_mean uncertain_speed_mean).

(** [train], the [else] branch (two model outputs): branch loss, speed loss
    and their weighted sum. *)
Definition train_simple (args : Args.t)
    (criterion : Tensor.t -> Tensor.t -> result R)
    (branches_out pred_speed : Tensor.t)
    (speed target mask : Tensor.t) : result (R * R * R) :=
  masked ← Tensor.mul branches_out mask;
  c ← criterion masked target;
  let branch_loss := c * 4 in
  speed_loss ← criterion pred_speed speed;
  let uncertain_loss :=
    Args.branch_weight args * branch_loss + Args.speed_weight args * speed_loss in
  mret (branch_loss, speed_loss, uncertain_loss).

(** [evaluate], the body of its batch loop up to the accumulator updates. *)
Definition evaluate_uncertain (args : Args.t)
    (criterion : Tensor.t -> Tensor.t -> result R)
    (branches_out pred_speed log_var_control log_var_speed : Tensor.t)
    (speed target mask : Tensor.t) : result t :=
  mask_out ← Tensor.mul branches_out mask;
  c ← criterion mask_out target;
  let ori_branch_loss := c * 4 in
  ori_speed_loss ← criterion pred_speed speed;
  d ← Tensor.sub branches_out target;
  w ← Tensor.mul (Tensor.exp (Tensor.neg log_var_control)) (Tensor.pow2 d);
  s ← Tensor.add w log_var_control;
  m ← Tensor.mul (Tensor.scale s 0.5) mask;
  let branch_loss := Tensor.mean m * 4 in
  ds ← Tensor.sub pred_speed speed;
  ws ← Tensor.mul (Tensor.exp (Tensor.neg log_var_speed)) (Tensor.pow2 ds);
  ss ← Tensor.add ws log_var_speed;
  let speed_loss := Tensor.mean (Tensor.scale ss 0.5) in
  let uncertain_loss :=
    Args.branch_weight args * branch_loss + Args.speed_weight args * speed_loss in
  let ori_loss :=
    Args.branch_weight args * ori_branch_loss
    + Args.speed_weight args * ori_speed_loss in
  cm ← Tensor.mul (Tensor.exp log_var_control) mask;
  let uncertain_control_mean := Tensor.mean (Tensor.scale cm 4) in
  let uncertain_speed_mean := Tensor.mean (Tensor.exp log_var_speed) in
  mret (mk branch_loss speed_loss uncertain_loss
           ori_loss uncertain_control_mean uncertain_speed_mean).

End Loss.

(** ** The loss formulas as the specification words them

    Written entry by entry over the index grid of the prediction tensor;
    [Tensor.get] reads an operand that broadcasting repeats. *)

Module Spec.
Local Open Scope R_scope.

(** The mean of [g i j] over [i < r], [j < c]. *)
Definition grid_mean (r c : nat) (g : nat -> nat -> R) : R :=
  Tensor.rsum r (fun i => Tensor.rsum c (fun j => g i j)) / INR (r * c).

(** mean((exp(-log_var_control) * (branch_pred - target)^2 + log_var_speed)
    * 0.5 * mask) * 4 *)
Definition branch_loss (r c : nat)
    (branch_pred target mask log_var_control log_var_speed : Tensor.t) : R :=
  grid_mean r c (fun i j =>
    (exp (- Tensor.get log_var_control i j)
       * (Tensor.get branch_pred i j - Tensor.get target i j) ^ 2
     + Tensor.get log_var_speed i j)
    * 0.5 * Tensor.get mask i j) * 4.

(** mean((exp(-log_var_speed) * (speed_pred - speed)^2 + log_var_speed)
    * 0.5) *)
Definition speed_loss (r c : nat)
    (speed_pred speed log_var_speed : Tensor.t) : R :=
  grid_mean r c (fun i j =>
    (exp (- Tensor.get log_var_speed i j)
       * (Tensor.get speed_pred i j - Tensor.get speed i j) ^ 2
     + Tensor.get log_var_speed i j)
    * 0.5).

(** Simple mode: mean((branch_pred * mask - target)^2) * 4 *)
Definition simple_branch_loss (r c : nat)
    (branch_pred target mask : Tensor.t) : R :=
  grid_mean r c (fun i j =>
    (Tensor.get branch_pred i j * Tensor.get mask i j
     - Tensor.get target i j) ^ 2) * 4.

(** Simple mode: mean((speed_pred - speed)^2) *)
Definition simple_speed_loss (r c : nat) (speed_pred speed : Tensor.t) : R :=
  grid_mean r c (fun i j =>
    (Tensor.get speed_pred i j - Tensor.get speed i j) ^ 2).

(** The mask is zero or one, and the target is zero where the mask is. *)
Definition masked_target (r c : nat) (target mask : Tensor.t) : Prop :=
  forall i j, (i < r)%nat -> (j < c)%nat ->
    Tensor.get mask i j = 1 \/
    (Tensor.get mask i j = 0 /\ Tensor.get target i j = 0).

End Spec.

(** ** main.py: [train]

    The clock-driven accumulators [batch_time] and [data_time] feed only the
    console line and are left out.  The summary writer is the list of the
    [add_scalar] calls made on it, oldest first. *)

Module Runner.
Local Open Scope R_scope.

(** One batch of a loader: [(img, speed, target, mask)]. *)
Record Batch (Img : Type) : Type := mkBatch {
  img : Img;
  speed : Tensor.t;
  target : Tensor.t;
  mask : Tensor.t
}.
Arguments mkBatch {Img} img speed target mask.
Arguments img {Img} b.
Arguments speed {Img} b.
Arguments target {Img} b.
Arguments mask {Img} b.

(** The six accumulators whose values reach the summary writer. *)
Record Meters : Type := mkMeters {
  uncertain_losses : AverageMeter.t;
  ori_losses : AverageMeter.t;
  branch_losses : AverageMeter.t;
  speed_losses : AverageMeter.t;
  uncertain_control_means : AverageMeter.t;
  uncertain_speed_means : AverageMeter.t
}.

Definition fresh_meters : Meters :=
  mkMeters AverageMeter.reset AverageMeter.reset AverageMeter.reset
           AverageMeter.reset AverageMeter.reset AverageMeter.reset.

(** [writer.add_scalar(tag, value, step)]. *)
Record Scalar : Type := mkScalar { tag : string; value : R; step : Z }.

(** The accumulator updates of one batch, lines 187 to 216: the mode
    dependent part first, then the three updates common to both modes.
    Unpacking a tuple of the wrong length raises [ValueError]. *)
Definition record_batch (args : Args.t)
    (criterion : Tensor.t -> Tensor.t -> result R)
    (out : list Tensor.t) (speed target mask : Tensor.t)
    (ms : Meters) : result Meters :=
  let n := IZR (Args.batch_size args) in
  '(bl, sl, ul, ms1) ←
    (if negb (Z.eqb (Args.net_structure args) 1) then
       match out with
       | [branches_out; pred_speed; log_var_control; log_var_speed] =>
           l ← Loss.train_uncertain args branches_out pred_speed
                 log_var_control log_var_speed speed target mask;
           o ← AverageMeter.update (ori_losses ms) (Loss.ori_loss l) n;
           c ← AverageMeter.update (uncertain_control_means ms)
                 (Loss.uncertain_control_mean l) (IZR (Args.bacth_size args));
           s ← AverageMeter.update (uncertain_speed_means ms)
                 (Loss.uncertain_speed_mean l) (IZR (Args.bacth_size args));
           mret (Loss.branch_loss l, Loss.speed_loss l, Loss.uncertain_loss l,
                 mkMeters (uncertain_losses ms) o (branch_losses ms)
                          (speed_losses ms) c s)
       | _ => Raise ValueError
       end
     else
       match out with
       | [branches_out; pred_speed] =>
           '(bl, sl, ul) ← Loss.train_simple args criterion
                             branches_out pred_speed speed target mask;
           mret (bl, sl, ul, ms)
       | _ => Raise ValueError
       end);
  u ← AverageMeter.update (uncertain_losses ms1) ul n;
  b ← AverageMeter.update (branch_losses ms1) bl n;
  s ← AverageMeter.update (speed_losses ms1) sl n;
  mret (mkMeters u (ori_losses ms1) b s
                 (uncertain_control_means ms1) (uncertain_speed_means ms1)).

(** The test [i % args.print_freq == 0 or i+1 == len(loader)]; the
    remainder is taken first and raises on a zero divisor. *)
Definition print_due (args : Args.t) (i len : nat) : result bool :=
  if Z.eqb (Args.print_freq args) 0 then Raise ZeroDivisionError
  else Ok (Z.eqb (Z.of_nat i mod Args.print_freq args) 0
           || Nat.eqb (i + 1) len).

(** The six [add_scalar] calls of lines 229 to 234. *)
Definition snapshot (ms : Meters) (k : Z) : list Scalar :=
  [ mkScalar "train/branch_loss" (AverageMeter.val (branch_losses ms)) k;
    mkScalar "train/speed_loss" (AverageMeter.val (speed_losses ms)) k;
    mkScalar "train/uncertain_loss" (AverageMeter.val (uncertain_losses ms)) k;
    mkScalar "train/ori_loss" (AverageMeter.val (ori_losses ms)) k;
    mkScalar "train/control_uncertain"
             (AverageMeter.val (uncertain_control_means ms)) k;
    mkScalar "train/speed_uncertain"
             (AverageMeter.val (uncertain_speed_means ms)) k ].




(** [str.format] with named replacement fields: fields are looked up among
    the keyword arguments from left to right, and the first one that is
    missing raises [KeyError]. *)
Definition format_named (fields kwargs : list string) : result unit :=
  match List.find (fun f => negb (existsb (String.eqb f) kwargs)) fields with
  | Some f => Raise (KeyError f)
  | None => Ok tt
  end.

(** The named fields of the console line of [train], in the order of the
    template, and the keyword arguments its [format] call passes. *)
Definition train_line_fields : list string :=
  [ "bacth_time"; "batch_time"; "data_time"; "data_time";
    "branch_loss"; "branch_loss"; "Speed_loss"; "Speed_loss";
    "uncertain_loss"; "uncertain_loss"; "ori_loss"; "ori_loss";
    "control_uncertain"; "control_uncertain";
    "speed_uncertain"; "speed_uncertain" ]%string.

Definition train_line_kwargs : list string :=
  [ "batch_time"; "data_time"; "branch_loss"; "speed_loss";
    "uncertain_loss"; "ori_loss"; "control_uncertain";
    "speed_uncertain" ]%string.

(** The same for the console line of [evaluate]. *)
Definition evaluate_line_fields : list string :=
  [ "batch_time"; "uncertain_loss"; "ori_loss"; "control_uncertain";
    "speed_uncertain" ]%string.

Definition evaluate_line_kwargs : list string :=
  [ "batch_time"; "uncertain_loss"; "ori_loss"; "control_uncertain";
    "speed_uncertain" ]%string.

Section Train.
Context {Img Params : Type}.

(** The model's forward pass on the current parameters, returning the
    tuple of its outputs, and the effect on the parameters of
    [zero_grad], [backward] and [optimizer.step]. *)
Variable forward : Params -> Img -> Tensor.t -> list Tensor.t.
Variable backward_step : Params -> Batch Img -> Params.

Variable args : Args.t.
Variable criterion : Tensor.t -> Tensor.t -> result R.

(** What [train] holds while it runs. *)
Record State : Type := mkState {
  params : Params;
  meters : Meters;
  writer : list Scalar
}.

(** The body of the batch loop for batch [i] of [len], in epoch [epoch]. *)
Definition train_batch (epoch : Z) (len i : nat) (b : Batch Img)
    (st : State) : State * result unit :=
  let k := (epoch * Z.of_nat len)%Z in
  let out := forward (params st) (img b) (speed b) in
  match record_batch args criterion out (speed b) (target b) (mask b)
                     (meters st) with
  | Raise e => (st, Raise e)
  | Ok ms =>
      let st1 := mkState (backward_step (params st) b) ms (writer st) in
      match print_due args i len with
      | Raise e => (st1, Raise e)
      | Ok false => (st1, Ok tt)
      | Ok true =>
          (mkState (params st1) ms
                   (writer st1 ++ snapshot ms (k + Z.of_nat i)%Z),
           format_named train_line_fields train_line_kwargs)
      end
  end.

Fixpoint train_loop (epoch : Z) (len i : nat) (batches : list (Batch Img))
    (st : State) : State * result unit :=
  match batches with
  | [] => (st, Ok tt)
  | b :: rest =>
      match train_batch epoch len i b st with
      | (st', Ok _) => train_loop epoch len (S i) rest st'
      | (st', Raise e) => (st', Raise e)
      end
  end.

(** [train(loader, model, criterion, optimizer, epoch, writer)]: the
    parameters and the writer as it leaves them, and what it returns. *)
Definition train (loader : list (Batch Img)) (p : Params) (epoch : Z)
    (w : list Scalar) : Params * list Scalar * result (R * R * R) :=
  let '(st, r) :=
    train_loop epoch (length loader) 0 loader (mkState p fresh_meters w) in
  (params st, writer st,
   match r with
   | Ok _ => Ok (AverageMeter.avg (branch_losses (meters st)),
                 AverageMeter.avg (speed_losses (meters st)),
                 AverageMeter.avg (uncertain_losses (meters st)))
   | Raise e => Raise e
   end).

End Train.

End Runner.

(** ** Paths and file names *)

Module Path.
Local Open Scope string_scope.

Definition is_abs (p : string) : bool :=
  match p with
  | String "/"%char _ => true
  | _ => false
  end.

Fixpoint ends_with_sep (p : string) : bool :=
  match p with
  | EmptyString => false
  | String c EmptyString => Ascii.eqb c "/"%char
  | String _ rest => ends_with_sep rest
  end.

(** [os.path.join(a, b)] on POSIX. *)
Definition join (a b : string) : string :=
  if is_abs b then b
  else if String.eqb a "" || ends_with_sep a then a ++ b
  else a ++ "/" ++ b.

(** [str] of a Python integer, as [format] inserts it. *)
Definition string_of_Z (z : Z) : string := NilZero.string_of_int (Z.to_int z).

End Path.

(** ** helper.py: [save_checkpoint], and main.py: [main] from the resume
    logic on

    The file system is a map from path strings to the checkpoints stored
    under them.  The learning-rate schedule is its position counter:
    torch's [StepLR] holds [last_epoch], zero after construction, and each
    [step()] adds one; the rate in force is a function of that position. *)

Module Orchestrator.

Section Main.
Context {Model Optim : Type}.

(** A checkpoint: the dictionary [main] hands to [save_checkpoint]. *)
Record Checkpoint : Type := mkCheckpoint {
  ck_epoch : Z;
  ck_state_dict : Model;
  ck_best_prec : float;
  ck_scheduler : Z;
  ck_optimizer : Optim
}.

(** [shutil.copyfile(src, dst)]. *)
Definition copyfile (src dst : string) (fs : gmap string Checkpoint)
    : result (gmap string Checkpoint) :=
  match fs !! src with
  | None => Raise (OSError "FileNotFoundError")
  | Some c =>
      if String.eqb src dst then Raise (OSError "SameFileError")
      else Ok (<[dst := c]> fs)
  end.

Definition best_path (id_ : string) : string :=
  Path.join "save_models" (id_ ++ "_best.pth").

(** [save_checkpoint(state, id_, is_best, filename)]: the files as it
    leaves them, and whether it returned or raised. *)
Definition save_checkpoint (state : Checkpoint) (id_ : string)
    (is_best : bool) (filename : string) (fs : gmap string Checkpoint)
    : gmap string Checkpoint * result unit :=
  let fs1 := <[filename := state]> fs in
  if is_best then
    match copyfile filename (best_path id_) fs1 with
    | Ok fs2 => (fs2, Ok tt)
    | Raise e => (fs1, Raise e)
    end
  else (fs1, Ok tt).

(** What the orchestrator does that the outside can see, in order. *)
Inductive Event : Type :=
| Log (msg : string)
| LrStep
| Train (epoch schedule : Z)
| Evaluate (epoch : Z) (outcome : result float)
| Save (filename : string) (is_best : bool) (state : Checkpoint).

(** The objects [main] holds, its local [best_prec], the files and the
    events so far. *)
Record State : Type := mkState {
  model : Model;
  optimizer : Optim;
  lr_scheduler : Z;
  best_prec : float;
  files : gmap string Checkpoint;
  events : list Event
}.

(** The two epoch runners as [main] calls them: [train] may change the
    model and the optimizer and sees the schedule position through the
    optimizer's rate; [evaluate] returns the metric.  Either may raise. *)
Variable train : Z -> Z -> Model -> Optim -> result (Model * Optim).
Variable evaluate : Z -> Model -> result float.

Variable args : Args.t.

Definition save_weight_dir : string := Path.join "./save_models" (Args.id args).

(** Python's [min(a, b)]: [b] when [b < a], else [a]. *)
Definition py_min (a b : float) : float := if PrimFloat.ltb b a then b else a.

Definition log (msg : string) (st : State) : State :=
  mkState (model st) (optimizer st) (lr_scheduler st) (best_prec st)
          (files st) (events st ++ [Log msg]).

Definition checkpoint_file (epoch : Z) : string :=
  Path.join save_weight_dir
            (Path.string_of_Z (epoch + 1) ++ "_" ++ Args.id args ++ ".pth").

(** The body of the epoch loop, lines 144 to 161. *)
Definition epoch_body (epoch : Z) (st : State) : State * result unit :=
  let sched := (lr_scheduler st + 1)%Z in
  let ev1 := events st ++ [LrStep; Train epoch sched] in
  match train epoch sched (model st) (optimizer st) with
  | Raise e =>
      (mkState (model st) (optimizer st) sched (best_prec st) (files st) ev1,
       Raise e)
  | Ok (m, o) =>
      let prec := evaluate epoch m in
      let ev2 := ev1 ++ [Evaluate epoch prec] in
      match prec with
      | Raise e => (mkState m o sched (best_prec st) (files st) ev2, Raise e)
      | Ok prec =>
          let is_best := PrimFloat.ltb prec (best_prec st) in
          let best := py_min prec (best_prec st) in
          let state := mkCheckpoint (epoch + 1) m best sched o in
          let filename := checkpoint_file epoch in
          let ev3 := ev2 ++ [Save filename is_best state] in
          let '(fs, r) := save_checkpoint state (Args.id args) is_best
                                          filename (files st) in
          (mkState m o sched best fs ev3, r)
      end
  end.

Fixpoint run_epochs (epochs : list Z) (st : State) : State * result unit :=
  match epochs with
  | [] => (st, Ok tt)
  | epoch :: rest =>
      match epoch_body epoch st with
      | (st', Ok _) => run_epochs rest st'
      | (st', Raise e) => (st', Raise e)
      end
  end.

(** Python's [range(a, b)]. *)
Definition range (a b : Z) : list Z :=
  List.map (fun k => (a + Z.of_nat k)%Z) (seq 0 (Z.to_nat (b - a))).

(** The value of [args.resume] after lines 110 and 111. *)
Definition resume_path : string :=
  if String.eqb (Args.resume args) "" then Args.resume args
  else Path.join save_weight_dir (Args.resume args).

Definition not_found_msg : string :=
  "=> no checkpoint found at '" ++ resume_path ++ "'".

(** Lines 107 to 122: the initial best metric and the optional resume.
    Returns the epoch to start from and the state. *)
Definition resume (st : State) : Z * State :=
  let st0 := mkState (model st) (optimizer st) (lr_scheduler st) infinity
                     (files st) (events st) in
  if String.eqb (Args.resume args) "" then (Args.start_epoch args, st0)
  else
    match files st !! resume_path with
    | Some ck =>
        (ck_epoch ck,
         mkState (ck_state_dict ck) (ck_optimizer ck) (ck_scheduler ck)
                 (ck_best_prec ck) (files st)
                 (events st ++ [Log ("=> loading checkpoint'" ++ resume_path ++ "'");
                                Log ("=> loaded checkpoint'" ++ resume_path ++ "'")]))
    | None => (Args.start_epoch args, log not_found_msg st0)
    end.

(** Lines 132 to 141: the evaluate-only run.  (The suffix put on
    [args.id] is not read again on this path.) *)
Definition evaluate_only (st : State) : State * result unit :=
  match files st !! resume_path with
  | None => (log not_found_msg st, Ok tt)
  | Some _ =>
      let st1 :=
        if String.eqb (Args.evaluate_log args) ""
        then log "=> please set evaluate log path with --evaluate-log<log-path>" st
        else st in
      let prec := evaluate 0 (model st1) in
      (mkState (model st1) (optimizer st1) (lr_scheduler st1) (best_prec st1)
               (files st1) (events st1 ++ [Evaluate 0 prec]),
       match prec with
       | Ok _ => Ok tt
       | Raise e => Raise e
       end)
  end.

(** [main], from line 107, on the model, optimizer and schedule that the
    lines before it construct. *)
Definition main (st : State) : State * result unit :=
  let '(start_epoch, st1) := resume st in
  if Args.evaluate args then evaluate_only st1
  else run_epochs (range start_epoch (Args.epochs args)) st1.

(** ** What the events of a run say *)

(** The metrics that [evaluate] returned, and what each
    [save_checkpoint] call was told: [is_best] and the best metric. *)
Definition metrics (evs : list Event) : list float :=
  flat_map (fun ev => match ev with
                      | Evaluate _ (Ok prec) => [prec]
                      | _ => []
                      end) evs.

Definition saves (evs : list Event) : list (bool * float) :=
  flat_map (fun ev => match ev with
                      | Save _ is_best ck => [(is_best, ck_best_prec ck)]
                      | _ => []
                      end) evs.

(** The training calls: epoch and schedule position. *)
Definition trains (evs : list Event) : list (Z * Z) :=
  flat_map (fun ev => match ev with
                      | Train epoch schedule => [(epoch, schedule)]
                      | _ => []
                      end) evs.

(** Best-metric tracking as the specification words it: at each epoch
    is_best = (metric < best so far), then best so far = min(metric, best
    so far). *)
Fixpoint best_trace (best : float) (ms : list float) : list (bool * float) :=
  match ms with
  | [] => []
  | metric :: rest =>
      (PrimFloat.ltb metric best, py_min metric best)
        :: best_trace (py_min metric best) rest
  end.

Definition final_best (best : float) (ms : list float) : float :=
  fold_left (fun b metric => py_min metric b) ms best.

(** No checkpoint is resumed: no resume path is given, or it names no
    file. *)
Definition no_resume (st : State) : Prop :=
  Args.resume args = ""%string \/ files st !! resume_path = None.

(** Event lists in which a training call only ever appears right after a
    schedule step. *)
Inductive stepped : list Event -> Prop :=
| stepped_nil : stepped []
| stepped_other (evs : list Event) (ev : Event) :
    stepped evs -> trains [ev] = [] -> stepped (evs ++ [ev])
| stepped_train (evs : list Event) (epoch schedule : Z) :
    stepped evs -> stepped (evs ++ [LrStep; Train epoch schedule]).

End Main.

End Orchestrator.

(** ** Sample inputs *)

Module Sample.
Local Open Scope R_scope.

(** Sample inputs: a batch of two rows and three branch columns, with one
    speed log-variance per row. *)
Definition sample_args : Args.t :=
  Args.mk 1 1 "run" 4 0 2 2 1 "" false "" 2.

(** A one-entry batch on which the prediction is exact, the control
    log-variance is one and the speed log-variance is zero. *)
Definition one (v : R) : Tensor.t := Tensor.const 1 1 v.

(** A mask selecting the first column, and a target that is zero
    elsewhere. *)
Definition first_column (v : R) : Tensor.t :=
  Tensor.mk 2 3 (fun _ j => if Nat.eqb j 0 then v else 0).

(** A simple-mode run: print frequency one, batches of two samples, a model
    that predicts zero, and a loader of two identical batches. *)
Definition simple_args : Args.t :=
  Args.mk 1 1 "run" 4 0 2 2 1 "" false "" 1.

Definition zero_model (_ : unit) (_ : unit) (_ : Tensor.t) : list Tensor.t :=
  [one 0; one 0].

Definition keep_params (p : unit) (_ : Runner.Batch unit) : unit := p.

Definition zero_batch : Runner.Batch unit :=
  Runner.mkBatch tt (one 0) (one 0) (one 1).

(** A run of four epochs on runners that always return: training leaves
    the learner as it is, evaluation reports 5, 3, 4 and 2. *)
Definition steady_train (_ _ : Z) (m o : unit) : result (unit * unit) :=
  Ok (m, o).

Definition scripted_evaluate (epoch : Z) (_ : unit) : result float :=
  Ok (match epoch with
      | 0%Z => 5%float
      | 1%Z => 3%float
      | 2%Z => 4%float
      | _ => 2%float
      end).

Definition initial_state : @Orchestrator.State unit unit :=
  Orchestrator.mkState tt tt 0 infinity ∅ [].


End Sample.

(** ** Runs of the accumulator

    The counts an accumulator passes through, and the runs of one weight
    that the epoch runners make. *)

Module Runs.
Local Open Scope R_scope.

(** The value of [count] after each update of a run started at [c]. *)
Fixpoint running_counts (c : R) (l : list (R * R)) : list R :=
  match l with
  | [] => []
  | (_, n) :: l' => (c + n) :: running_counts (c + n) l'
  end.

Definition never_zero (c : R) (l : list (R * R)) : Prop :=
  Forall (fun k => k <> 0) (running_counts c l).



End Runs.

(** ** main.py: [evaluate]

    As for [train], the clock-driven [batch_time] is left out.  [evaluate]
    takes no optimizer step, so one set of parameters serves the whole
    pass. *)

Module Evaluator.
Local Open Scope R_scope.

(** The four accumulators of [evaluate]. *)
Record Meters : Type := mkMeters {
  uncertain_losses : AverageMeter.t;
  ori_losses : AverageMeter.t;
  uncertain_control_means : AverageMeter.t;
  uncertain_speed_means : AverageMeter.t
}.

Definition fresh_meters : Meters :=
  mkMeters AverageMeter.reset AverageMeter.reset
           AverageMeter.reset AverageMeter.reset.

(** One batch, lines 277 to 304: unpack the four model outputs, compute
    the losses, update the four accumulators with [args.batch_size]. *)
Definition record_batch (args : Args.t)
    (criterion : Tensor.t -> Tensor.t -> result R)
    (out : list Tensor.t) (speed target mask : Tensor.t)
    (ms : Meters) : result Meters :=
  match out with
  | [branches_out; pred_speed; log_var_control; log_var_speed] =>
      l ← Loss.evaluate_uncertain args criterion branches_out pred_speed
            log_var_control log_var_speed speed target mask;
      let n := IZR (Args.batch_size args) in
      u ← AverageMeter.update (uncertain_losses ms) (Loss.uncertain_loss l) n;
      o ← AverageMeter.update (ori_losses ms) (Loss.ori_loss l) n;
      c ← AverageMeter.update (uncertain_control_means ms)
            (Loss.uncertain_control_mean l) n;
      s ← AverageMeter.update (uncertain_speed_means ms)
            (Loss.uncertain_speed_mean l) n;
      mret (mkMeters u o c s)
  | _ => Raise ValueError
  end.

(** The four [add_scalar] calls of lines 310 to 313. *)
Definition summary (ms : Meters) (epoch : Z) : list Runner.Scalar :=
  [ Runner.mkScalar "eval/uncertain_loss"
      (AverageMeter.avg (uncertain_losses ms)) (epoch + 1);
    Runner.mkScalar "eval/origin_loss"
      (AverageMeter.avg (ori_losses ms)) (epoch + 1);
    Runner.mkScalar "eval/control_uncertain"
      (AverageMeter.avg (uncertain_control_means ms)) (epoch + 1);
    Runner.mkScalar "eval/speed_uncertain"
      (AverageMeter.avg (uncertain_speed_means ms)) (epoch + 1) ].

Section Evaluate.
Context {Img Params : Type}.
Variable forward : Params -> Img -> Tensor.t -> list Tensor.t.
Variable args : Args.t.
Variable criterion : Tensor.t -> Tensor.t -> result R.

Fixpoint evaluate_loop (p : Params) (batches : list (Runner.Batch Img))
    (ms : Meters) : result Meters :=
  match batches with
  | [] => Ok ms
  | b :: rest =>
      ms' ← record_batch args criterion
              (forward p (Runner.img b) (Runner.speed b))
              (Runner.speed b) (Runner.target b) (Runner.mask b) ms;
      evaluate_loop p rest ms'
  end.

(** [evaluate(loader, model, criterion, epoch, writer)]: the writer as it
    leaves it, and what it returns. *)
Definition evaluate (loader : list (Runner.Batch Img)) (p : Params)
    (epoch : Z) (w : list Runner.Scalar) : list Runner.Scalar * result R :=
  match evaluate_loop p loader fresh_meters with
  | Raise e => (w, Raise e)
  | Ok ms =>
      (w ++ summary ms epoch,
       _ ← Runner.format_named Runner.evaluate_line_fields
                               Runner.evaluate_line_kwargs;
       mret (AverageMeter.avg (uncertain_losses ms)))
  end.


End Evaluate.

End Evaluator.

(** ** The command line

    [args] as a later invocation with [--resume path] has it. *)

Module Cli.



End Cli.

(** ** More sample inputs *)

Module Sample2.
Local Open Scope R_scope.


Definition wide_target_batch : Runner.Batch unit :=
  Runner.mkBatch tt (Sample.one 0) (Tensor.const 1 2 0) (Sample.one 1).

Definition wide_model (_ : unit) (_ : unit) (_ : Tensor.t) : list Tensor.t :=
  [Tensor.const 1 3 0; Sample.one 0; Sample.one 0; Sample.one 0].



End Sample2.

(** * Properties *)

Import Sample.

(** ** The metric accumulator *)

Section AverageMeterFacts.
Import AverageMeter.
Local Open Scope R_scope.

(** The accumulator after a non-empty run of positively weighted updates,
    started from any state whose count is not negative. *)
Lemma updates_from (l : list (R * R)) :
  forall (m : t) (v n : R),
    0 <= count m -> 0 < n -> positive_weights l ->
    exists m',
      updates m ((v, n) :: l) = Ok m' /\
      sum m' = sum m + weighted_sum ((v, n) :: l) /\
      count m' = count m + weight_total ((v, n) :: l) /\
      val m' = last_value ((v, n) :: l) /\
      avg m' = sum m' / count m'.
Proof.
  induction l as [|[v1 n1] l IH]; intros m v n Hc Hn Hl.
  - cbn [updates]. unfold update.
    destruct (Req_dec_T (count m + n) 0) as [E|_]; [lra|].
    eexists; split; [reflexivity|]. cbn. repeat split; lra.
  - apply Forall_cons_1 in Hl. destruct Hl as [Hn1 Hl]. simpl in Hn1.
    cbn [updates]. unfold update at 1.
    destruct (Req_dec_T (count m + n) 0) as [E|_]; [lra|].
    set (m1 := {| val := v; avg := (sum m + v * n) / (count m + n);
                  sum := sum m + v * n; count := count m + n |}).
    destruct (IH m1 v1 n1) as (m' & Hrun & Hs & Hcnt & Hv & Ha);
      [simpl; lra | exact Hn1 | exact Hl |].
    exists m'. split; [exact Hrun|].
    change (sum m1) with (sum m + v * n) in Hs.
    change (count m1) with (count m + n) in Hcnt.
    repeat split.
    + rewrite Hs. cbn [weighted_sum]. lra.
    + rewrite Hcnt. cbn [weight_total]. lra.
    + rewrite Hv. reflexivity.
    + exact Ha.
Qed.

(** C7. [reset] puts value, sum and count at zero; and from [reset], any
    sequence of [update(value_i, weight_i)] calls whose weights are all
    positive runs without exception and leaves [avg] at
    sum(value_i * weight_i) / sum(weight_i), [val] at the last value, [sum]
    at sum(value_i * weight_i) and [count] at sum(weight_i). *)
Theorem average_meter_contract (l : list (R * R)) :
  positive_weights l ->
  (val reset = 0 /\ sum reset = 0 /\ count reset = 0) /\
  exists m,
    updates reset l = Ok m /\
    avg m = weighted_sum l / weight_total l /\
    val m = last_value l /\
    sum m = weighted_sum l /\
    count m = weight_total l.
Proof.
  intros Hl. split; [repeat split|].
  destruct l as [|[v n] l].
  - exists reset. cbn. repeat split. unfold Rdiv. now rewrite Rmult_0_l.
  - apply Forall_cons_1 in Hl. destruct Hl as [Hn Hl]. simpl in Hn.
    destruct (updates_from l reset v n) as (m & Hrun & Hs & Hc & Hv & Ha);
      [simpl; lra | exact Hn | exact Hl |].
    change (sum reset) with 0 in Hs. change (count reset) with 0 in Hc.
    rewrite Rplus_0_l in Hs, Hc.
    exists m. repeat split; try assumption.
    rewrite Ha, Hs, Hc. reflexivity.
Qed.

Lemma average_meter_contract_witness :
  positive_weights [(2, 1); (4, 3)] /\
  exists m,
    updates reset [(2, 1); (4, 3)] = Ok m /\
    avg m = weighted_sum [(2, 1); (4, 3)] / weight_total [(2, 1); (4, 3)] /\
    val m = 4.
Proof.
  assert (H : positive_weights [(2, 1); (4, 3)]).
  { repeat constructor; simpl; lra. }
  split; [exact H|].
  destruct (average_meter_contract [(2, 1); (4, 3)] H)
    as (_ & m & Hrun & Ha & Hv & _).
  exists m. repeat split; assumption.
Defined.

End AverageMeterFacts.

(** ** Tensors and losses *)

Section TensorFacts.
Import Tensor.
Local Open Scope R_scope.

Lemma bind_ok {A B : Type} (a : A) (k : A -> result B) : (Ok a ≫= k) = k a.
Proof. reflexivity. Qed.

Lemma rsum_ext (n : nat) (f g : nat -> R) :
  (forall i, (i < n)%nat -> f i = g i) -> rsum n f = rsum n g.
Proof.
  induction n as [|n IH]; intros H; cbn [rsum]; [reflexivity|].
  rewrite IH by (intros i Hi; apply H; lia). rewrite H by lia. reflexivity.
Qed.

Lemma rsum_scale (n : nat) (f : nat -> R) (k : R) :
  rsum n (fun i => f i * k) = rsum n f * k.
Proof.
  induction n as [|n IH]; cbn [rsum]; [lra|]. rewrite IH. lra.
Qed.

Lemma broadcast_dim_same (a : nat) : broadcast_dim a a = Ok a.
Proof. unfold broadcast_dim. now rewrite Nat.eqb_refl. Qed.

Lemma broadcast_dim_one_r (a : nat) : broadcast_dim a 1 = Ok a.
Proof.
  unfold broadcast_dim.
  destruct (Nat.eqb_spec a 1) as [->|_]; [reflexivity|].
  reflexivity.
Qed.

Lemma broadcast_dim_one_l (a : nat) : broadcast_dim 1 a = Ok a.
Proof.
  unfold broadcast_dim.
  destruct (Nat.eqb_spec 1 a) as [<-|_]; reflexivity.
Qed.

Lemma zip_fits_r (f : R -> R -> R) (x y : t) (r c : nat) :
  has_shape x r c -> fits y r c ->
  zip f x y = Ok (mk r c (fun i j => f (get x i j) (get y i j))).
Proof.
  intros [Hr Hc] [Hr' Hc']. unfold zip. rewrite Hr, Hc.
  assert (E1 : broadcast_dim r (rows y) = Ok r).
  { destruct Hr' as [->| ->];
      [apply broadcast_dim_same | apply broadcast_dim_one_r]. }
  assert (E2 : broadcast_dim c (cols y) = Ok c).
  { destruct Hc' as [->| ->];
      [apply broadcast_dim_same | apply broadcast_dim_one_r]. }
  rewrite E1, bind_ok, E2, bind_ok. reflexivity.
Qed.

Lemma zip_fits_l (f : R -> R -> R) (x y : t) (r c : nat) :
  fits x r c -> has_shape y r c ->
  zip f x y = Ok (mk r c (fun i j => f (get x i j) (get y i j))).
Proof.
  intros [Hr' Hc'] [Hr Hc]. unfold zip. rewrite Hr, Hc.
  assert (E1 : broadcast_dim (rows x) r = Ok r).
  { destruct Hr' as [->| ->];
      [apply broadcast_dim_same | apply broadcast_dim_one_l]. }
  assert (E2 : broadcast_dim (cols x) c = Ok c).
  { destruct Hc' as [->| ->];
      [apply broadcast_dim_same | apply broadcast_dim_one_l]. }
  rewrite E1, bind_ok, E2, bind_ok. reflexivity.
Qed.

Lemma has_shape_fits (x : t) (r c : nat) : has_shape x r c -> fits x r c.
Proof. intros [Hr Hc]. split; left; assumption. Qed.

Lemma has_shape_mk (r c : nat) (g : nat -> nat -> R) : has_shape (mk r c g) r c.
Proof. split; reflexivity. Qed.

Lemma get_map (f : R -> R) (x : t) (i j : nat) : get (map f x) i j = f (get x i j).
Proof. reflexivity. Qed.

Lemma get_mk (r c : nat) (g : nat -> nat -> R) (i j : nat) :
  (i < r)%nat -> (j < c)%nat -> get (mk r c g) i j = g i j.
Proof.
  intros Hi Hj. unfold get. cbn [rows cols data].
  destruct (Nat.eqb_spec r 1) as [->|_], (Nat.eqb_spec c 1) as [->|_];
    repeat match goal with
           | H : (?k < 1)%nat |- _ => assert (k = 0%nat) as -> by lia; clear H
           end; reflexivity.
Qed.

(** The mean of a tensor given by its shape and entries. *)
Lemma mean_mk (r c : nat) (g h : nat -> nat -> R) :
  (forall i j, (i < r)%nat -> (j < c)%nat -> g i j = h i j) ->
  mean (mk r c g) = Spec.grid_mean r c h.
Proof.
  intros H. unfold mean, total, Spec.grid_mean. cbn [rows cols data].
  f_equal. apply rsum_ext. intros i Hi. apply rsum_ext. intros j Hj.
  now apply H.
Qed.

End TensorFacts.

Section LossFacts.
Local Open Scope R_scope.

(** One broadcast operation on operands whose shapes are known. *)
Ltac shape_side :=
  solve [ assumption
        | apply has_shape_mk
        | apply has_shape_fits; assumption
        | apply has_shape_fits; apply has_shape_mk
        | split; reflexivity ].

Ltac zip_step r c :=
  cbv zeta;
  match goal with
  | |- context [Tensor.zip ?f ?x ?y] =>
      first [ rewrite (zip_fits_r f x y r c) by shape_side
            | rewrite (zip_fits_l f x y r c) by shape_side ]
  end;
  rewrite ?bind_ok.

Ltac read_entries :=
  unfold Tensor.scale, Tensor.exp, Tensor.neg, Tensor.pow2;
  repeat first [ progress cbn [Tensor.data]
               | rewrite get_map
               | rewrite get_mk by assumption ].

(** The two losses of the uncertainty branch of [train], entry by entry. *)
Lemma train_uncertain_closed_form (args : Args.t)
    (branches_out pred_speed log_var_control log_var_speed : Tensor.t)
    (speed target mask : Tensor.t) (r c r' c' : nat) :
  Tensor.has_shape branches_out r c ->
  Tensor.has_shape target r c ->
  Tensor.has_shape mask r c ->
  Tensor.fits log_var_control r c ->
  Tensor.fits log_var_speed r c ->
  Tensor.has_shape pred_speed r' c' ->
  Tensor.has_shape speed r' c' ->
  Tensor.fits log_var_speed r' c' ->
  exists l,
    Loss.train_uncertain args branches_out pred_speed log_var_control
                         log_var_speed speed target mask = Ok l /\
    Loss.branch_loss l =
      Spec.branch_loss r c branches_out target mask
                       log_var_control log_var_speed /\
    Loss.speed_loss l = Spec.speed_loss r' c' pred_speed speed log_var_speed /\
    Loss.uncertain_loss l =
      Args.branch_weight args * Loss.branch_loss l
      + Args.speed_weight args * Loss.speed_loss l.
Proof.
  intros Hb Ht Hm Hlc Hls Hp Hs Hls'.
  unfold Loss.train_uncertain, Tensor.sub, Tensor.add, Tensor.mul.
  repeat first [zip_step r c | zip_step r' c'].
  eexists. split; [reflexivity|].
  cbn [Loss.branch_loss Loss.speed_loss Loss.uncertain_loss].
  split; [|split; [|reflexivity]].
  - unfold Spec.branch_loss. f_equal. apply mean_mk. intros i j Hi Hj.
    read_entries. reflexivity.
  - unfold Spec.speed_loss. apply mean_mk. intros i j Hi Hj.
    read_entries. reflexivity.
Qed.

(** C1. In uncertainty mode, on a batch and a model output of matching
    shapes (log-variances broadcastable against their predictions), [train]
    computes the branch loss
    mean((exp(-log_var_control) * (branch_pred - target)^2 + log_var_speed)
    * 0.5 * mask) * 4, with [log_var_speed] as the added term, the speed loss
    mean((exp(-log_var_speed) * (speed_pred - speed)^2 + log_var_speed) * 0.5),
    and the total branch_weight * branch_loss + speed_weight * speed_loss. *)
Theorem train_uncertain_formulas (args : Args.t)
    (branches_out pred_speed log_var_control log_var_speed : Tensor.t)
    (speed target mask : Tensor.t) (r c r' c' : nat) :
  Tensor.has_shape branches_out r c ->
  Tensor.has_shape target r c ->
  Tensor.has_shape mask r c ->
  Tensor.fits log_var_control r c ->
  Tensor.fits log_var_speed r c ->
  Tensor.has_shape pred_speed r' c' ->
  Tensor.has_shape speed r' c' ->
  Tensor.fits log_var_speed r' c' ->
  exists l,
    Loss.train_uncertain args branches_out pred_speed log_var_control
                         log_var_speed speed target mask = Ok l /\
    Loss.branch_loss l =
      Spec.branch_loss r c branches_out target mask
                       log_var_control log_var_speed /\
    Loss.speed_loss l = Spec.speed_loss r' c' pred_speed speed log_var_speed /\
    Loss.uncertain_loss l =
      Args.branch_weight args * Loss.branch_loss l
      + Args.speed_weight args * Loss.speed_loss l.
Proof.
  intros Hb Ht Hm Hlc Hls Hp Hs Hls'.
  now apply train_uncertain_closed_form.
Qed.


Lemma train_uncertain_formulas_witness :
  exists l,
    Loss.train_uncertain sample_args
      (Tensor.const 2 3 1) (Tensor.const 2 1 2)
      (Tensor.const 2 3 0) (Tensor.const 2 1 0)
      (Tensor.const 2 1 1) (Tensor.const 2 3 0) (Tensor.const 2 3 1) = Ok l /\
    Loss.branch_loss l =
      Spec.branch_loss 2 3 (Tensor.const 2 3 1) (Tensor.const 2 3 0)
        (Tensor.const 2 3 1) (Tensor.const 2 3 0) (Tensor.const 2 1 0).
Proof.
  destruct (train_uncertain_formulas sample_args
              (Tensor.const 2 3 1) (Tensor.const 2 1 2)
              (Tensor.const 2 3 0) (Tensor.const 2 1 0)
              (Tensor.const 2 1 1) (Tensor.const 2 3 0) (Tensor.const 2 3 1)
              2 3 2 1) as (l & Hrun & Hb & _);
    try (split; reflexivity);
    try (split; [left | right]; reflexivity);
    try (split; left; reflexivity).
  exists l. split; assumption.
Defined.

(** Evaluation of a closed loss expression down to real arithmetic. *)
Ltac evaluate_reals :=
  cbv -[Rplus Rmult Rminus Ropp Rdiv Rinv Rtrigo_def.exp pow INR IZR];
  change (INR 1) with 1; simpl pow.

(** C2, evaluated where it fails.  On this batch [train] computes branch
    loss 0 and combined loss 0, while [evaluate] computes branch loss 2 and
    combined loss 2: [evaluate] adds [log_var_control] inside the branch
    loss where [train] adds [log_var_speed].  The speed losses agree. *)
Theorem evaluate_differs_from_train :
  exists lt le,
    Loss.train_uncertain sample_args (one 0) (one 0) (one 1) (one 0)
                         (one 0) (one 0) (one 1) = Ok lt /\
    Loss.evaluate_uncertain sample_args Tensor.MSELoss
                            (one 0) (one 0) (one 1) (one 0)
                            (one 0) (one 0) (one 1) = Ok le /\
    Loss.branch_loss lt = 0 /\ Loss.branch_loss le = 2 /\
    Loss.speed_loss lt = Loss.speed_loss le /\
    Loss.uncertain_loss lt = 0 /\ Loss.uncertain_loss le = 2.
Proof.
  eexists. eexists. split; [reflexivity|]. split; [reflexivity|].
  evaluate_reals. repeat split; lra.
Qed.

(** C3 as stated fails.  With both log-variances zero, a mask entry of zero
    and a target of one on a prediction of zero, the uncertainty-mode branch
    loss is 0 while half the simple-mode branch loss is 2: the simple mode
    masks the prediction only, the uncertainty mode masks the squared
    error. *)
Lemma zero_log_var_counterexample :
  exists lu bl sl ul,
    Loss.train_uncertain sample_args (one 0) (one 0) (one 0) (one 0)
                         (one 0) (one 1) (one 0) = Ok lu /\
    Loss.train_simple sample_args Tensor.MSELoss (one 0) (one 0)
                      (one 0) (one 1) (one 0) = Ok (bl, sl, ul) /\
    Loss.branch_loss lu = 0 /\
    0.5 * bl = 2 /\
    Loss.branch_loss lu <> 0.5 * bl.
Proof.
  do 4 eexists. split; [reflexivity|]. split; [reflexivity|].
  evaluate_reals. repeat split; lra.
Qed.

Lemma grid_mean_half (r c : nat) (g h : nat -> nat -> R) :
  (forall i j, (i < r)%nat -> (j < c)%nat -> g i j = h i j * 0.5) ->
  Spec.grid_mean r c g = 0.5 * Spec.grid_mean r c h.
Proof.
  intros H. unfold Spec.grid_mean.
  replace (Tensor.rsum r (fun i => Tensor.rsum c (fun j => g i j)))
    with (Tensor.rsum r (fun i => Tensor.rsum c (fun j => h i j)) * 0.5).
  - unfold Rdiv. lra.
  - rewrite <- rsum_scale. apply rsum_ext. intros i Hi.
    rewrite <- rsum_scale. apply rsum_ext. intros j Hj.
    symmetry. now apply H.
Qed.

(** C3, amended.  When both log-variances are zero, every mask entry is
    zero or one and the target is zero wherever the mask is zero, the
    uncertainty-mode branch loss is 0.5 times the simple-mode branch loss
    mean((branch_pred * mask - target)^2) * 4, and the uncertainty-mode
    speed loss is 0.5 times the simple-mode speed loss
    mean((speed_pred - speed)^2). *)
Theorem zero_log_var_halves (args : Args.t)
    (branches_out pred_speed log_var_control log_var_speed : Tensor.t)
    (speed target mask : Tensor.t) (r c r' c' : nat) :
  Tensor.has_shape branches_out r c ->
  Tensor.has_shape target r c ->
  Tensor.has_shape mask r c ->
  Tensor.fits log_var_control r c ->
  Tensor.fits log_var_speed r c ->
  Tensor.has_shape pred_speed r' c' ->
  Tensor.has_shape speed r' c' ->
  Tensor.fits log_var_speed r' c' ->
  Tensor.all_zero log_var_control ->
  Tensor.all_zero log_var_speed ->
  Spec.masked_target r c target mask ->
  exists lu bl sl ul,
    Loss.train_uncertain args branches_out pred_speed log_var_control
                         log_var_speed speed target mask = Ok lu /\
    Loss.train_simple args Tensor.MSELoss branches_out pred_speed
                      speed target mask = Ok (bl, sl, ul) /\
    bl = Spec.simple_branch_loss r c branches_out target mask /\
    sl = Spec.simple_speed_loss r' c' pred_speed speed /\
    Loss.branch_loss lu = 0.5 * bl /\
    Loss.speed_loss lu = 0.5 * sl.
Proof.
  intros Hb Ht Hm Hlc Hls Hp Hs Hls' Zc Zs Hmask.
  destruct (train_uncertain_closed_form args branches_out pred_speed
              log_var_control log_var_speed speed target mask r c r' c')
    as (lu & Hrun & Hbl & Hsl & _); try assumption.
  exists lu.
  unfold Loss.train_simple, Tensor.MSELoss, Tensor.sub, Tensor.mul.
  repeat first [zip_step r c | zip_step r' c'].
  do 3 eexists. split; [exact Hrun|]. split; [reflexivity|].
  assert (Ebl : Tensor.mean
                  (Tensor.pow2
                     (Tensor.mk r c (fun i j =>
                        Tensor.get
                          (Tensor.mk r c (fun i0 j0 =>
                             Tensor.get branches_out i0 j0
                             * Tensor.get mask i0 j0)) i j
                        - Tensor.get target i j))) * 4
                = Spec.simple_branch_loss r c branches_out target mask).
  { unfold Spec.simple_branch_loss. f_equal. apply mean_mk.
    intros i j Hi Hj. read_entries. reflexivity. }
  assert (Esl : Tensor.mean
                  (Tensor.pow2
                     (Tensor.mk r' c' (fun i j =>
                        Tensor.get pred_speed i j - Tensor.get speed i j)))
                = Spec.simple_speed_loss r' c' pred_speed speed).
  { unfold Spec.simple_speed_loss. apply mean_mk.
    intros i j Hi Hj. read_entries. reflexivity. }
  split; [exact Ebl|]. split; [exact Esl|].
  assert (Gc : forall i j, Tensor.get log_var_control i j = 0)
    by (intros; apply Zc).
  assert (Gs : forall i j, Tensor.get log_var_speed i j = 0)
    by (intros; apply Zs).
  split.
  - rewrite Hbl, Ebl.
    unfold Spec.branch_loss, Spec.simple_branch_loss.
    rewrite (grid_mean_half r c _
               (fun i j => (Tensor.get branches_out i j * Tensor.get mask i j
                            - Tensor.get target i j) ^ 2)); [lra|].
    intros i j Hi Hj. rewrite Gc, Gs, Ropp_0, exp_0.
    destruct (Hmask i j Hi Hj) as [-> | [-> ->]]; lra.
  - rewrite Hsl, Esl.
    unfold Spec.speed_loss, Spec.simple_speed_loss.
    apply grid_mean_half.
    intros i j Hi Hj. rewrite Gs, Ropp_0, exp_0. lra.
Qed.

Lemma zero_log_var_halves_witness :
  Spec.masked_target 2 3 (first_column 0.3) (first_column 1) /\
  exists lu bl sl ul,
    Loss.train_uncertain sample_args
      (Tensor.const 2 3 1) (Tensor.const 2 1 2)
      (Tensor.const 2 3 0) (Tensor.const 2 1 0)
      (Tensor.const 2 1 1) (first_column 0.3) (first_column 1) = Ok lu /\
    Loss.train_simple sample_args Tensor.MSELoss
      (Tensor.const 2 3 1) (Tensor.const 2 1 2)
      (Tensor.const 2 1 1) (first_column 0.3) (first_column 1)
      = Ok (bl, sl, ul) /\
    Loss.branch_loss lu = 0.5 * bl /\
    Loss.speed_loss lu = 0.5 * sl.
Proof.
  assert (H : Spec.masked_target 2 3 (first_column 0.3) (first_column 1)).
  { intros i j _ _. unfold Tensor.get, first_column.
    cbn [Tensor.rows Tensor.cols Tensor.data Nat.eqb].
    destruct j as [|j]; cbn [Nat.eqb]; [left | right; split]; reflexivity. }
  split; [exact H|].
  destruct (zero_log_var_halves sample_args
              (Tensor.const 2 3 1) (Tensor.const 2 1 2)
              (Tensor.const 2 3 0) (Tensor.const 2 1 0)
              (Tensor.const 2 1 1) (first_column 0.3) (first_column 1)
              2 3 2 1)
    as (lu & bl & sl & ul & Hu & Hsm & _ & _ & Hb & Hs);
    try exact H;
    try (split; reflexivity);
    try (split; [left | right]; reflexivity);
    try (split; left; reflexivity);
    try (intros i j; reflexivity).
  exists lu, bl, sl, ul. repeat split; assumption.
Defined.

(** All six results of the uncertainty branch of [train], entry by
    entry. *)
Lemma train_uncertain_all_fields (args : Args.t)
    (branches_out pred_speed log_var_control log_var_speed : Tensor.t)
    (speed target mask : Tensor.t) (r c r' c' : nat) :
  Tensor.has_shape branches_out r c ->
  Tensor.has_shape target r c ->
  Tensor.has_shape mask r c ->
  Tensor.fits log_var_control r c ->
  Tensor.fits log_var_speed r c ->
  Tensor.has_shape pred_speed r' c' ->
  Tensor.has_shape speed r' c' ->
  Tensor.fits log_var_speed r' c' ->
  exists l,
    Loss.train_uncertain args branches_out pred_speed log_var_control
                         log_var_speed speed target mask = Ok l /\
    Loss.branch_loss l =
      Spec.branch_loss r c branches_out target mask
                       log_var_control log_var_speed /\
    Loss.speed_loss l = Spec.speed_loss r' c' pred_speed speed log_var_speed /\
    Loss.uncertain_loss l =
      Args.branch_weight args * Loss.branch_loss l
      + Args.speed_weight args * Loss.speed_loss l /\
    Loss.ori_loss l =
      Args.branch_weight args
      * Spec.grid_mean r c (fun i j =>
          (Tensor.get branches_out i j - Tensor.get target i j) ^ 2
          * Tensor.get mask i j * 4)
      + Args.speed_weight args
        * Spec.grid_mean r' c' (fun i j =>
            (Tensor.get pred_speed i j - Tensor.get speed i j) ^ 2) /\
    Loss.uncertain_control_mean l =
      Spec.grid_mean r c (fun i j =>
        exp (Tensor.get log_var_control i j) * Tensor.get mask i j * 4) /\
    Loss.uncertain_speed_mean l = Tensor.mean (Tensor.exp log_var_speed).
Proof.
  intros Hb Ht Hm Hlc Hls Hp Hs Hls'.
  unfold Loss.train_uncertain, Tensor.sub, Tensor.add, Tensor.mul.
  repeat first [zip_step r c | zip_step r' c'].
  eexists. split; [reflexivity|].
  cbn [Loss.branch_loss Loss.speed_loss Loss.uncertain_loss Loss.ori_loss
       Loss.uncertain_control_mean Loss.uncertain_speed_mean].
  split; [|split; [|split; [reflexivity|split; [|split; [|reflexivity]]]]].
  - unfold Spec.branch_loss. f_equal. apply mean_mk. intros i j Hi Hj.
    read_entries. reflexivity.
  - unfold Spec.speed_loss. apply mean_mk. intros i j Hi Hj.
    read_entries. reflexivity.
  - f_equal; f_equal; apply mean_mk; intros i j Hi Hj; read_entries;
      reflexivity.
  - apply mean_mk. intros i j Hi Hj. read_entries. reflexivity.
Qed.


End LossFacts.

(** ** The training runner *)

Section TrainFacts.
Import Runner.
Context {Img Params : Type}.
Variable forward : Params -> Img -> Tensor.t -> list Tensor.t.
Variable backward_step : Params -> Batch Img -> Params.
Variable args : Args.t.
Variable criterion : Tensor.t -> Tensor.t -> result R.
Local Open Scope R_scope.








End TrainFacts.

Section TrainAbort.
Import Runner.
Context {Img Params : Type}.
Variable forward : Params -> Img -> Tensor.t -> list Tensor.t.
Variable backward_step : Params -> Batch Img -> Params.
Variable args : Args.t.
Variable criterion : Tensor.t -> Tensor.t -> result R.
Local Open Scope R_scope.

Lemma update_ok (m : AverageMeter.t) (v n : R) :
  AverageMeter.count m + n <> 0 ->
  AverageMeter.update m v n =
    Ok (AverageMeter.mk v ((AverageMeter.sum m + v * n)
                           / (AverageMeter.count m + n))
                        (AverageMeter.sum m + v * n)
                        (AverageMeter.count m + n)).
Proof.
  intros H. unfold AverageMeter.update.
  destruct (Req_dec_T (AverageMeter.count m + n) 0); [contradiction|].
  reflexivity.
Qed.

(** The console line of [train] cannot be formatted: its first named field
    is not among the keyword arguments. *)
Lemma train_line_raises :
  format_named train_line_fields train_line_kwargs
  = Raise (KeyError "bacth_time").
Proof. reflexivity. Qed.

(** The console line of [evaluate] can. *)
Lemma evaluate_line_ok :
  format_named evaluate_line_fields evaluate_line_kwargs = Ok tt.
Proof. reflexivity. Qed.

(** In simple mode the accumulators of the first batch. *)
Lemma record_batch_simple_fresh (bo ps sp tg mk : Tensor.t) (bl sl ul : R) :
  Args.net_structure args = 1%Z ->
  Args.batch_size args <> 0%Z ->
  Loss.train_simple args criterion bo ps sp tg mk = Ok (bl, sl, ul) ->
  exists ms,
    record_batch args criterion [bo; ps] sp tg mk fresh_meters = Ok ms /\
    AverageMeter.val (branch_losses ms) = bl /\
    AverageMeter.val (speed_losses ms) = sl /\
    AverageMeter.val (uncertain_losses ms) = ul.
Proof.
  intros Hns Hn Hl. unfold record_batch. rewrite Hns.
  cbn [Z.eqb Pos.eqb negb]. rewrite Hl, !bind_ok.
  assert (Hc : AverageMeter.count AverageMeter.reset
               + IZR (Args.batch_size args) <> 0).
  { cbn [AverageMeter.count AverageMeter.reset]. rewrite Rplus_0_l.
    intros E. apply Hn. now apply eq_IZR. }
  cbn [uncertain_losses branch_losses speed_losses fresh_meters].
  rewrite !(update_ok _ _ _ Hc), !bind_ok.
  eexists. split; [reflexivity|]. repeat split.
Qed.

(** Within one batch the snapshot is written exactly when it is due, under
    the step [epoch * len(loader) + i]. *)
Lemma train_batch_writer (epoch : Z) (len i : nat) (b : Batch Img)
    (st : State) (ms : Meters) (due : bool) :
  record_batch args criterion (forward (params st) (img b) (speed b))
               (speed b) (target b) (mask b) (meters st) = Ok ms ->
  print_due args i len = Ok due ->
  writer (train_batch forward backward_step args criterion
                      epoch len i b st).1 =
    if due then writer st ++ snapshot ms (epoch * Z.of_nat len + Z.of_nat i)%Z
    else writer st.
Proof.
  intros Hrec Hdue. unfold train_batch. rewrite Hrec, Hdue.
  destruct due; reflexivity.
Qed.

(** On a loader that is not empty, [train] does not get past its first
    batch: once the accumulators are updated and the first snapshot is
    written, formatting the console line raises. *)
Lemma train_first_batch (b : Batch Img) (rest : list (Batch Img))
    (p : Params) (epoch : Z) (w : list Scalar) (ms : Meters) :
  Args.print_freq args <> 0%Z ->
  record_batch args criterion (forward p (img b) (speed b))
               (speed b) (target b) (mask b) fresh_meters = Ok ms ->
  train forward backward_step args criterion (b :: rest) p epoch w =
    (backward_step p b,
     w ++ snapshot ms (epoch * Z.of_nat (length (b :: rest)))%Z,
     Raise (KeyError "bacth_time")).
Proof.
  intros Hf Hrec. unfold train. cbn [train_loop]. unfold train_batch.
  cbn [params meters writer]. rewrite Hrec. unfold print_due.
  apply Z.eqb_neq in Hf. rewrite Hf.
  change (Z.of_nat 0) with 0%Z. rewrite Zmod_0_l.
  cbn [Z.eqb orb]. rewrite train_line_raises, Z.add_0_r. reflexivity.
Qed.

End TrainAbort.


(** C9, evaluated where it fails.  Epoch 3 over two batches with print
    frequency one: a snapshot is due on batch 0 (step 6) and on batch 1
    (step 7).  [train] writes the six scalars of step 6 and then raises
    [KeyError] while formatting the console line, so nothing is written for
    batch 1. *)
Theorem train_emits_first_batch_only :
  Runner.print_due simple_args 0 2 = Ok true /\
  Runner.print_due simple_args 1 2 = Ok true /\
  exists w,
    Runner.train zero_model keep_params simple_args Tensor.MSELoss
                 [zero_batch; zero_batch] tt 3 []
    = (tt, w, Raise (KeyError "bacth_time")) /\
    List.map Runner.step w = [6; 6; 6; 6; 6; 6]%Z.
Proof.
  split; [reflexivity|]. split; [reflexivity|].
  destruct (record_batch_simple_fresh simple_args Tensor.MSELoss
              (one 0) (one 0) (one 0) (one 0) (one 1) _ _ _
              eq_refl ltac:(discriminate) eq_refl)
    as (ms & Hrec & _).
  eexists. split.
  - apply (train_first_batch zero_model keep_params simple_args
             Tensor.MSELoss zero_batch [zero_batch] tt 3 [] ms);
      [discriminate | exact Hrec].
  - reflexivity.
Qed.

(** ** Paths *)

Section PathFacts.
Local Open Scope string_scope.







End PathFacts.

(** ** The orchestrator *)

Section OrchestratorFacts.
Import Orchestrator.
Context {Model Optim : Type}.
Variable train : Z -> Z -> Model -> Optim -> result (Model * Optim).
Variable evaluate : Z -> Model -> result float.
Variable args : Args.t.

#[local] Abbreviation State := (@State Model Optim).
#[local] Abbreviation Checkpoint := (@Checkpoint Model Optim).
#[local] Abbreviation Event := (@Event Model Optim).



Lemma best_trace_app (ms1 ms2 : list float) :
  forall best,
    best_trace best (ms1 ++ ms2)
    = best_trace best ms1 ++ best_trace (final_best best ms1) ms2.
Proof.
  induction ms1 as [|metric ms1 IH]; intros best; [reflexivity|].
  cbn. now rewrite IH.
Qed.

Lemma resume_cases (st : State) :
  no_resume args st ->
  exists logs,
    resume args st =
      (Args.start_epoch args,
       mkState (model st) (optimizer st) (lr_scheduler st) infinity
               (files st) (events st ++ logs)) /\
    (logs = [] \/ logs = [Log (not_found_msg args)]).
Proof.
  intros H. unfold resume.
  destruct (String.eqb (Args.resume args) "") eqn:E.
  - exists []. rewrite app_nil_r. split; [reflexivity|now left].
  - destruct H as [H|H]; [rewrite H in E; discriminate E|].
    rewrite H. exists [Log (not_found_msg args)].
    split; [reflexivity|now right].
Qed.

(** What one epoch adds to the events. *)
Lemma epoch_body_events (epoch : Z) (st : State) :
  exists tail,
    events (epoch_body train evaluate args epoch st).1
    = events st ++ [LrStep; Train epoch (lr_scheduler st + 1)] ++ tail /\
    trains tail = [] /\
    saves tail = best_trace (best_prec st) (metrics tail) /\
    ((epoch_body train evaluate args epoch st).2 = Ok tt ->
     best_prec (epoch_body train evaluate args epoch st).1
     = final_best (best_prec st) (metrics tail) /\
     lr_scheduler (epoch_body train evaluate args epoch st).1
     = (lr_scheduler st + 1)%Z).
Proof.
  unfold epoch_body.
  destruct (train epoch _ _ _) as [[m o]|e].
  - destruct (evaluate epoch m) as [prec|e].
    + destruct (save_checkpoint _ _ _ _ _) as [fs r].
      cbn [fst snd events best_prec lr_scheduler].
      eexists. split; [rewrite <- !app_assoc; reflexivity|].
      repeat split.
    + cbn [fst snd events]. eexists.
      split; [rewrite <- !app_assoc; reflexivity|].
      repeat split; discriminate.
  - cbn [fst snd events]. exists [].
    repeat split; discriminate.
Qed.

Lemma trains_app (l1 l2 : list Event) : trains (l1 ++ l2) = trains l1 ++ trains l2.
Proof. apply flat_map_app. Qed.

Lemma saves_app (l1 l2 : list Event) : saves (l1 ++ l2) = saves l1 ++ saves l2.
Proof. apply flat_map_app. Qed.

Lemma metrics_app (l1 l2 : list Event) :
  metrics (l1 ++ l2) = metrics l1 ++ metrics l2.
Proof. apply flat_map_app. Qed.

Lemma stepped_app_other (evs tail : list Event) :
  stepped evs -> trains tail = [] -> stepped (evs ++ tail).
Proof.
  intros Hs. induction tail as [|ev tail IH] using rev_ind; intros Ht.
  - now rewrite app_nil_r.
  - rewrite trains_app in Ht. apply app_eq_nil in Ht. destruct Ht as [Ht Hev].
    rewrite app_assoc. apply stepped_other; [now apply IH | exact Hev].
Qed.


(** What the epoch loop adds to the events. *)
Lemma run_epochs_events (epochs : list Z) :
  forall st : State,
    stepped (events st) ->
    exists new,
      events (run_epochs train evaluate args epochs st).1 = events st ++ new /\
      stepped (events st ++ new) /\
      saves new = best_trace (best_prec st) (metrics new) /\
      (forall epoch schedule,
          In (epoch, schedule) (trains new) ->
          exists k, nth_error epochs k = Some epoch /\
                    schedule = (lr_scheduler st + Z.of_nat k + 1)%Z) /\
      (forall epoch rest,
          epochs = epoch :: rest ->
          In (epoch, (lr_scheduler st + 1)%Z) (trains new)).
Proof.
  induction epochs as [|epoch rest IH]; intros st Hst.
  - exists []. cbn [run_epochs fst]. rewrite app_nil_r.
    repeat split; try assumption; try reflexivity.
    + intros ? ? [].
    + discriminate.
  - cbn [run_epochs].
    destruct (epoch_body_events epoch st) as (tail & Hev & Htr & Hsv & Hok).
    assert (Hblock : stepped (events st ++ [LrStep; Train epoch (lr_scheduler st + 1)] ++ tail)).
    { rewrite app_assoc. apply stepped_app_other; [|exact Htr].
      now apply stepped_train. }
    destruct (epoch_body train evaluate args epoch st) as [st' [[]|e]];
      cbn [fst snd] in *.
    + destruct (Hok eq_refl) as [Hbest Hsched].
      rewrite <- Hev in Hblock.
      destruct (IH st' Hblock) as (new & Hev' & Hs' & Hsv' & Htr' & _).
      exists (([LrStep; Train epoch (lr_scheduler st + 1)] ++ tail) ++ new).
      rewrite Hev', Hev, <- !app_assoc in *.
      split; [reflexivity|]. split; [exact Hs'|].
      split; [|split].
      * cbn [app]. change (saves (LrStep :: Train epoch (lr_scheduler st + 1)
                                   :: tail ++ new))
          with (saves (tail ++ new)).
        change (metrics (LrStep :: Train epoch (lr_scheduler st + 1)
                           :: tail ++ new))
          with (metrics (tail ++ new)).
        rewrite saves_app, metrics_app, best_trace_app, Hsv, Hsv', Hbest.
        reflexivity.
      * intros e' s' Hin. cbn [app] in Hin.
        change (trains (LrStep :: Train epoch (lr_scheduler st + 1)
                          :: tail ++ new))
          with ((epoch, (lr_scheduler st + 1)%Z) :: trains (tail ++ new)) in Hin.
        rewrite trains_app, Htr in Hin. cbn [app] in Hin.
        destruct Hin as [Hin|Hin].
        -- injection Hin as <- <-. exists 0%nat. split; [reflexivity|lia].
        -- destruct (Htr' _ _ Hin) as (k & Hk & ->).
           exists (S k). split; [exact Hk|lia].
      * intros e' rest' Heq. injection Heq as <- <-. now left.
    + exists ([LrStep; Train epoch (lr_scheduler st + 1)] ++ tail).
      split; [exact Hev|]. split; [exact Hblock|].
      split; [|split].
      * exact Hsv.
      * intros e' s' Hin.
        change (trains ([LrStep; Train epoch (lr_scheduler st + 1)] ++ tail))
          with ((epoch, (lr_scheduler st + 1)%Z) :: trains tail) in Hin.
        rewrite Htr in Hin. destruct Hin as [Hin|[]].
        injection Hin as <- <-. exists 0%nat. split; [reflexivity|lia].
      * intros e' rest' Heq. injection Heq as <- <-. now left.
Qed.





(** C4. A run that resumes no checkpoint starts from best metric
    [math.inf]; at every epoch the flag passed to [save_checkpoint] is
    metric < best so far and the best metric saved is
    min(metric, best so far).  So when the evaluation metrics of the run are
    5.0, 3.0, 4.0, 2.0, the best metrics saved are 5.0, 3.0, 3.0, 2.0 and
    the flags are true, true, false, true. *)
Theorem best_metric_tracking (st : State) :
  Args.evaluate args = false ->
  no_resume args st ->
  events st = [] ->
  best_prec (resume args st).2 = infinity /\
  saves (events (main train evaluate args st).1)
  = best_trace infinity (metrics (events (main train evaluate args st).1)) /\
  (metrics (events (main train evaluate args st).1)
   = [5%float; 3%float; 4%float; 2%float] ->
   saves (events (main train evaluate args st).1)
   = [(true, 5%float); (true, 3%float); (false, 3%float); (true, 2%float)]).
Proof.
  intros Hev Hno Hnil.
  destruct (resume_cases st Hno) as (logs & Hres & Hlogs).
  assert (Hmain : saves (events (main train evaluate args st).1)
                  = best_trace infinity
                      (metrics (events (main train evaluate args st).1))).
  { unfold main. rewrite Hres, Hev, Hnil. cbn [app].
    set (st1 := mkState _ _ _ _ _ _).
    assert (Hst1 : stepped (events st1)).
    { cbn. destruct Hlogs as [->| ->]; [constructor|].
      apply (stepped_other []); [constructor|reflexivity]. }
    destruct (run_epochs_events
                (range (Args.start_epoch args) (Args.epochs args)) st1 Hst1)
      as (new & Hnew & _ & Hsv & _).
    rewrite Hnew, saves_app, metrics_app.
    cbn [events st1 best_prec] in *.
    destruct Hlogs as [->| ->]; exact Hsv. }
  split; [now rewrite Hres|]. split; [exact Hmain|].
  intros Hm. rewrite Hmain, Hm. reflexivity.
Qed.



End OrchestratorFacts.

Lemma best_metric_tracking_witness :
  Orchestrator.metrics (Orchestrator.events
             (Orchestrator.main steady_train scripted_evaluate
                                sample_args initial_state).1)
  = [5%float; 3%float; 4%float; 2%float] /\
  Orchestrator.saves (Orchestrator.events
           (Orchestrator.main steady_train scripted_evaluate
                              sample_args initial_state).1)
  = [(true, 5%float); (true, 3%float); (false, 3%float); (true, 2%float)].
Proof.
  assert (Hm : Orchestrator.metrics (Orchestrator.events
                          (Orchestrator.main steady_train scripted_evaluate
                                             sample_args initial_state).1)
               = [5%float; 3%float; 4%float; 2%float])
    by (vm_compute; reflexivity).
  split; [exact Hm|].
  destruct (best_metric_tracking steady_train scripted_evaluate sample_args
              initial_state eq_refl (or_introl eq_refl) eq_refl)
    as (_ & _ & H).
  exact (H Hm).
Defined.




(** * Further properties *)

Import Sample2.

(** ** The accumulator on arbitrary weights *)

Section AverageMeterRuns.
Import AverageMeter Runs.
Local Open Scope R_scope.

(** A run from any state: it goes through exactly when no count on the way
    is zero. *)
Lemma updates_never_zero (l : list (R * R)) :
  forall m : t,
    never_zero (count m) l ->
    exists m',
      updates m l = Ok m' /\
      sum m' = sum m + weighted_sum l /\
      count m' = count m + weight_total l /\
      (l <> [] -> val m' = last_value l /\ avg m' = sum m' / count m').
Proof.
  induction l as [|[v n] l IH]; intros m Hnz.
  - exists m. split; [reflexivity|]. split; [cbn; lra|]. split; [cbn; lra|].
    intros Hne. now contradiction Hne.
  - apply Forall_cons_1 in Hnz. destruct Hnz as [Hc Hnz].
    cbn [updates]. unfold update.
    destruct (Req_dec_T (count m + n) 0) as [E|_]; [contradiction|].
    set (m1 := {| val := v; avg := (sum m + v * n) / (count m + n);
                  sum := sum m + v * n; count := count m + n |}).
    destruct (IH m1 Hnz) as (m' & Hrun & Hs & Hcnt & Hlast).
    exists m'. split; [exact Hrun|].
    change (sum m1) with (sum m + v * n) in Hs.
    change (count m1) with (count m + n) in Hcnt.
    split; [rewrite Hs; cbn [weighted_sum]; lra|].
    split; [rewrite Hcnt; cbn [weight_total]; lra|].
    intros _. destruct l as [|p l].
    + cbn in Hrun. injection Hrun as <-. split; reflexivity.
    + destruct (Hlast ltac:(discriminate)) as [Hv Ha].
      split; [rewrite Hv; reflexivity | exact Ha].
Qed.

Lemma updates_hits_zero (l : list (R * R)) :
  forall m : t,
    ~ never_zero (count m) l -> updates m l = Raise ZeroDivisionError.
Proof.
  induction l as [|[v n] l IH]; intros m Hz.
  - contradiction Hz. constructor.
  - cbn [updates]. unfold update.
    destruct (Req_dec_T (count m + n) 0) as [E|Hne]; [reflexivity|].
    apply IH. cbn [count]. intros Hnz. apply Hz. now constructor.
Qed.

(** X1. From [reset], a sequence of updates with arbitrary weights runs
    through when no running count is zero, and then [sum], [count] and
    [val] are the weighted sum, the total weight and the last value, and
    [avg] is their quotient; when some running count is zero it raises
    [ZeroDivisionError]. *)
Theorem updates_zero_count (l : list (R * R)) :
  (never_zero 0 l ->
   exists m,
     updates reset l = Ok m /\
     sum m = weighted_sum l /\
     count m = weight_total l /\
     val m = last_value l /\
     avg m = weighted_sum l / weight_total l) /\
  (~ never_zero 0 l -> updates reset l = Raise ZeroDivisionError).
Proof.
  split.
  - intros Hnz.
    destruct (updates_never_zero l reset Hnz) as (m & Hrun & Hs & Hc & Hlast).
    change (sum reset) with 0 in Hs. change (count reset) with 0 in Hc.
    rewrite Rplus_0_l in Hs, Hc.
    exists m. split; [exact Hrun|]. split; [exact Hs|]. split; [exact Hc|].
    destruct l as [|p l].
    + cbn in Hrun. injection Hrun as <-. cbn. split; [reflexivity|].
      unfold Rdiv. now rewrite Rmult_0_l.
    + destruct (Hlast ltac:(discriminate)) as [Hv Ha].
      split; [exact Hv|]. now rewrite Ha, Hs, Hc.
  - exact (updates_hits_zero l reset).
Qed.











End AverageMeterRuns.

(** ** The loss computations *)

Section LossRelations.
Local Open Scope R_scope.

Lemma grid_mean_scale (r c : nat) (g h : nat -> nat -> R) (k : R) :
  (forall i j, (i < r)%nat -> (j < c)%nat -> g i j = h i j * k) ->
  Spec.grid_mean r c g = Spec.grid_mean r c h * k.
Proof.
  intros H. unfold Spec.grid_mean.
  replace (Tensor.rsum r (fun i => Tensor.rsum c (fun j => g i j)))
    with (Tensor.rsum r (fun i => Tensor.rsum c (fun j => h i j)) * k).
  - unfold Rdiv. lra.
  - rewrite <- rsum_scale. apply rsum_ext. intros i Hi.
    rewrite <- rsum_scale. apply rsum_ext. intros j Hj.
    symmetry. now apply H.
Qed.



Lemma rsum_const (n : nat) (k : R) :
  Tensor.rsum n (fun _ => k) = INR n * k.
Proof.
  induction n as [|n IH]; [cbn; lra|].
  cbn [Tensor.rsum]. rewrite IH, S_INR. lra.
Qed.

Lemma grid_mean_const (r c : nat) (g : nat -> nat -> R) (k : R) :
  (0 < r)%nat -> (0 < c)%nat ->
  (forall i j, (i < r)%nat -> (j < c)%nat -> g i j = k) ->
  Spec.grid_mean r c g = k.
Proof.
  intros Hr Hc H. unfold Spec.grid_mean.
  replace (Tensor.rsum r (fun i => Tensor.rsum c (fun j => g i j)))
    with (INR r * (INR c * k)).
  - rewrite mult_INR. field.
    split; apply not_0_INR; lia.
  - rewrite <- rsum_const. apply rsum_ext. intros i Hi.
    rewrite <- rsum_const. apply rsum_ext. intros j Hj.
    symmetry. now apply H.
Qed.


(** X4. With both log-variances zero, the combined loss [train] optimises
    in uncertainty mode is half the [ori_loss] it logs beside it, for every
    mask and target: both mask the squared error. *)
Theorem zero_log_var_half_of_ori (args : Args.t)
    (branches_out pred_speed log_var_control log_var_speed : Tensor.t)
    (speed target mask : Tensor.t) (r c r' c' : nat) :
  Tensor.has_shape branches_out r c ->
  Tensor.has_shape target r c ->
  Tensor.has_shape mask r c ->
  Tensor.fits log_var_control r c ->
  Tensor.fits log_var_speed r c ->
  Tensor.has_shape pred_speed r' c' ->
  Tensor.has_shape speed r' c' ->
  Tensor.fits log_var_speed r' c' ->
  Tensor.all_zero log_var_control ->
  Tensor.all_zero log_var_speed ->
  exists l,
    Loss.train_uncertain args branches_out pred_speed log_var_control
                         log_var_speed speed target mask = Ok l /\
    Loss.uncertain_loss l = 0.5 * Loss.ori_loss l.
Proof.
  intros Hb Ht Hm Hlc Hls Hp Hs Hls' Zc Zs.
  destruct (train_uncertain_all_fields args branches_out pred_speed
              log_var_control log_var_speed speed target mask r c r' c')
    as (l & Hrun & Hbl & Hsl & Hul & Hol & _); try assumption.
  exists l. split; [exact Hrun|].
  assert (Gc : forall i j, Tensor.get log_var_control i j = 0)
    by (intros; apply Zc).
  assert (Gs : forall i j, Tensor.get log_var_speed i j = 0)
    by (intros; apply Zs).
  rewrite Hul, Hol, Hbl, Hsl. unfold Spec.branch_loss, Spec.speed_loss.
  rewrite (grid_mean_scale r c _
             (fun i j => (Tensor.get branches_out i j - Tensor.get target i j) ^ 2
                         * Tensor.get mask i j * 4) (/ 8)).
  - rewrite (grid_mean_scale r' c' _
               (fun i j => (Tensor.get pred_speed i j - Tensor.get speed i j) ^ 2)
               0.5).
    + lra.
    + intros i j Hi Hj. rewrite Gs, Ropp_0, exp_0. lra.
  - intros i j Hi Hj. rewrite Gc, Gs, Ropp_0, exp_0. lra.
Qed.

Lemma zero_log_var_half_of_ori_witness :
  exists l,
    Loss.train_uncertain sample_args
      (Tensor.const 2 3 1) (Tensor.const 2 1 2)
      (Tensor.const 2 3 0) (Tensor.const 2 1 0)
      (Tensor.const 2 1 1) (Tensor.const 2 3 0.3) (first_column 1) = Ok l /\
    Loss.uncertain_loss l = 0.5 * Loss.ori_loss l.
Proof.
  apply (zero_log_var_half_of_ori sample_args
           (Tensor.const 2 3 1) (Tensor.const 2 1 2)
           (Tensor.const 2 3 0) (Tensor.const 2 1 0)
           (Tensor.const 2 1 1) (Tensor.const 2 3 0.3) (first_column 1)
           2 3 2 1);
    try (split; reflexivity);
    try (split; [left | right]; reflexivity);
    try (split; left; reflexivity);
    try (intros i j; reflexivity).
Defined.



(** One fallible step of a chain that is known to return. *)
Ltac returned_step :=
  match goal with
  | H : (?r ≫= _) = Ok _ |- _ =>
      destruct r; [rewrite bind_ok in H | discriminate H]
  end.

(** X6. Whenever [evaluate] gets through a batch, the [ori_loss] it records
    is the combined loss that the simple branch of [train] computes from the
    same predictions, batch and criterion: the two places mask the
    prediction in the same way. *)
Theorem evaluate_ori_is_simple_loss (args : Args.t)
    (criterion : Tensor.t -> Tensor.t -> result R)
    (branches_out pred_speed log_var_control log_var_speed : Tensor.t)
    (speed target mask : Tensor.t) (le : Loss.t) :
  Loss.evaluate_uncertain args criterion branches_out pred_speed
    log_var_control log_var_speed speed target mask = Ok le ->
  exists bl sl,
    Loss.train_simple args criterion branches_out pred_speed
                      speed target mask = Ok (bl, sl, Loss.ori_loss le).
Proof.
  unfold Loss.evaluate_uncertain, Loss.train_simple.
  destruct (Tensor.mul branches_out mask) as [mo|];
    [|intros H; discriminate H].
  rewrite !bind_ok.
  destruct (criterion mo target) as [cb|]; [|intros H; discriminate H].
  rewrite !bind_ok.
  destruct (criterion pred_speed speed) as [cs|];
    [|intros H; discriminate H].
  rewrite !bind_ok.
  intros H. repeat returned_step. injection H as <-.
  do 2 eexists. reflexivity.
Qed.

Lemma evaluate_ori_is_simple_loss_witness :
  exists le bl sl,
    Loss.evaluate_uncertain sample_args Tensor.MSELoss
      (one 0) (one 0) (one 1) (one 0) (one 0) (one 0) (one 1) = Ok le /\
    Loss.train_simple sample_args Tensor.MSELoss
      (one 0) (one 0) (one 0) (one 0) (one 1) = Ok (bl, sl, Loss.ori_loss le).
Proof.
  eexists.
  destruct (evaluate_ori_is_simple_loss sample_args Tensor.MSELoss
              (one 0) (one 0) (one 1) (one 0) (one 0) (one 0) (one 1)
              _ eq_refl) as (bl & sl & H).
  exists bl, sl. split; [reflexivity | exact H].
Defined.



(** X8. With both log-variances zero, the two uncertainty diagnostics of
    [train] do not depend on the predictions: the speed diagnostic is 1
    (for a speed log-variance that is not empty) and the control diagnostic
    is four times the mean of the mask. *)
Theorem zero_log_var_diagnostics (args : Args.t)
    (branches_out pred_speed log_var_control log_var_speed : Tensor.t)
    (speed target mask : Tensor.t) (r c r' c' : nat) :
  Tensor.has_shape branches_out r c ->
  Tensor.has_shape target r c ->
  Tensor.has_shape mask r c ->
  Tensor.fits log_var_control r c ->
  Tensor.fits log_var_speed r c ->
  Tensor.has_shape pred_speed r' c' ->
  Tensor.has_shape speed r' c' ->
  Tensor.fits log_var_speed r' c' ->
  Tensor.all_zero log_var_control ->
  Tensor.all_zero log_var_speed ->
  (0 < Tensor.rows log_var_speed)%nat ->
  (0 < Tensor.cols log_var_speed)%nat ->
  exists l,
    Loss.train_uncertain args branches_out pred_speed log_var_control
                         log_var_speed speed target mask = Ok l /\
    Loss.uncertain_speed_mean l = 1 /\
    Loss.uncertain_control_mean l =
      Spec.grid_mean r c (fun i j => Tensor.get mask i j) * 4.
Proof.
  intros Hb Ht Hm Hlc Hls Hp Hs Hls' Zc Zs Hr Hc.
  destruct (train_uncertain_all_fields args branches_out pred_speed
              log_var_control log_var_speed speed target mask r c r' c')
    as (l & Hrun & _ & _ & _ & _ & Hcm & Hsm); try assumption.
  exists l. split; [exact Hrun|]. split.
  - rewrite Hsm.
    change (Tensor.exp log_var_speed)
      with (Tensor.mk (Tensor.rows log_var_speed) (Tensor.cols log_var_speed)
                      (fun i j => exp (Tensor.data log_var_speed i j))).
    rewrite (mean_mk _ _ _ (fun _ _ => 1)).
    + now apply grid_mean_const.
    + intros i j _ _. rewrite Zs. apply exp_0.
  - rewrite Hcm. apply grid_mean_scale.
    intros i j Hi Hj. unfold Tensor.get at 1. rewrite Zc, exp_0. lra.
Qed.

Lemma zero_log_var_diagnostics_witness :
  exists l,
    Loss.train_uncertain sample_args
      (Tensor.const 2 3 1) (Tensor.const 2 1 2)
      (Tensor.const 2 3 0) (Tensor.const 2 1 0)
      (Tensor.const 2 1 1) (Tensor.const 2 3 0.3) (first_column 1) = Ok l /\
    Loss.uncertain_speed_mean l = 1.
Proof.
  destruct (zero_log_var_diagnostics sample_args
              (Tensor.const 2 3 1) (Tensor.const 2 1 2)
              (Tensor.const 2 3 0) (Tensor.const 2 1 0)
              (Tensor.const 2 1 1) (Tensor.const 2 3 0.3) (first_column 1)
              2 3 2 1)
    as (l & Hrun & Hs & _);
    try (split; reflexivity);
    try (split; [left | right]; reflexivity);
    try (split; left; reflexivity);
    try (intros i j; reflexivity);
    try (cbn; lia).
  exists l. split; assumption.
Defined.

End LossRelations.

(** ** The evaluation runner *)

Section EvaluateFacts.
Import Evaluator.
Context {Img Params : Type}.
Variable forward : Params -> Img -> Tensor.t -> list Tensor.t.
Variable args : Args.t.
Variable criterion : Tensor.t -> Tensor.t -> result R.
Local Open Scope R_scope.

Ltac returned_step :=
  match goal with
  | H : (?r ≫= _) = Ok _ |- _ =>
      destruct r eqn:?; [rewrite bind_ok in H | discriminate H]
  end.






(** X10. [evaluate] writes its summary only when every batch went through:
    then it appends exactly four scalars, all under step [epoch + 1], the
    first being the metric it returns; when a batch raises, the writer is
    left as it was. *)
Theorem evaluate_summary (loader : list (Runner.Batch Img))
    (p : Params) (epoch : Z) (w : list Runner.Scalar) :
  (forall r,
      (evaluate forward args criterion loader p epoch w).2 = Ok r ->
      exists o c s,
        (evaluate forward args criterion loader p epoch w).1 =
        w ++ [ Runner.mkScalar "eval/uncertain_loss" r (epoch + 1);
               Runner.mkScalar "eval/origin_loss" o (epoch + 1);
               Runner.mkScalar "eval/control_uncertain" c (epoch + 1);
               Runner.mkScalar "eval/speed_uncertain" s (epoch + 1) ]) /\
  (forall e,
      (evaluate forward args criterion loader p epoch w).2 = Raise e ->
      (evaluate forward args criterion loader p epoch w).1 = w).
Proof.
  unfold evaluate.
  destruct (evaluate_loop forward args criterion p loader fresh_meters)
    as [ms|e0]; cbn [fst snd]; rewrite ?evaluate_line_ok, ?bind_ok; split.
  - intros r H. injection H as <-. do 3 eexists. reflexivity.
  - intros e H. discriminate H.
  - intros r H. discriminate H.
  - intros e _. reflexivity.
Qed.

(** X11. On an empty loader [evaluate] returns metric 0 and writes four
    zeros under step [epoch + 1]: no accumulator was updated. *)
Theorem evaluate_empty_loader (p : Params) (epoch : Z)
    (w : list Runner.Scalar) :
  evaluate forward args criterion [] p epoch w =
    (w ++ [ Runner.mkScalar "eval/uncertain_loss" 0 (epoch + 1);
            Runner.mkScalar "eval/origin_loss" 0 (epoch + 1);
            Runner.mkScalar "eval/control_uncertain" 0 (epoch + 1);
            Runner.mkScalar "eval/speed_uncertain" 0 (epoch + 1) ],
     Ok 0).
Proof. reflexivity. Qed.


End EvaluateFacts.




(** ** The training runner on whole loaders *)

Section TrainRuns.
Import Runner.
Context {Img Params : Type}.
Variable forward : Params -> Img -> Tensor.t -> list Tensor.t.
Variable backward_step : Params -> Batch Img -> Params.
Variable args : Args.t.
Variable criterion : Tensor.t -> Tensor.t -> result R.
Local Open Scope R_scope.

(** On the first batch a snapshot is always due, unless the test itself
    raises. *)
Lemma print_due_first (len : nat) : print_due args 0 len <> Ok false.
Proof.
  unfold print_due. destruct (Z.eqb (Args.print_freq args) 0); [discriminate|].
  change (Z.of_nat 0) with 0%Z. rewrite Zmod_0_l. discriminate.
Qed.

(** X13. [train] returns only on an empty loader, with all three averages
    zero and nothing changed.  On any other loader it raises during its
    first batch: at most one optimizer step has been taken, and the writer
    holds either nothing new or the one snapshot of step
    [epoch * len(loader)]. *)
Theorem train_returns_only_on_empty (loader : list (Batch Img))
    (p : Params) (epoch : Z) (w : list Scalar) :
  (loader = [] ->
   train forward backward_step args criterion loader p epoch w
   = (p, w, Ok (0, 0, 0))) /\
  (forall b rest,
      loader = b :: rest ->
      exists e p' w',
        train forward backward_step args criterion loader p epoch w
        = (p', w', Raise e) /\
        (p' = p \/ p' = backward_step p b) /\
        (w' = w \/
         exists ms,
           w' = w ++ snapshot ms (epoch * Z.of_nat (length loader))%Z)).
Proof.
  split.
  - intros ->. reflexivity.
  - intros b rest ->. unfold train. cbn [train_loop]. unfold train_batch.
    cbn [params meters writer].
    destruct (record_batch _ _ _ _ _ _ _) as [ms|e].
    + pose proof (print_due_first (length (b :: rest))) as Hdue.
      destruct (print_due args 0 (length (b :: rest))) as [[|]|e].
      * rewrite train_line_raises. cbn [params writer].
        do 3 eexists. split; [reflexivity|]. split; [now right|].
        right. exists ms. now rewrite Z.add_0_r.
      * now contradiction Hdue.
      * cbn [params writer]. do 3 eexists. split; [reflexivity|].
        split; [now right | now left].
    + cbn [params writer]. do 3 eexists. split; [reflexivity|].
      split; now left.
Qed.

(** X14. In uncertainty mode, a target whose number of columns differs
    from the prediction's, neither being one, makes [train] raise
    [RuntimeError] on that first batch, before any optimizer step and any
    write. *)
Theorem train_shape_mismatch (b : Batch Img) (rest : list (Batch Img))
    (p : Params) (epoch : Z) (w : list Scalar)
    (branches_out pred_speed log_var_control log_var_speed : Tensor.t) :
  Args.net_structure args <> 1%Z ->
  forward p (img b) (speed b)
  = [branches_out; pred_speed; log_var_control; log_var_speed] ->
  Tensor.cols branches_out <> Tensor.cols (target b) ->
  Tensor.cols branches_out <> 1%nat ->
  Tensor.cols (target b) <> 1%nat ->
  train forward backward_step args criterion (b :: rest) p epoch w
  = (p, w, Raise RuntimeError).
Proof.
  intros Hns Hf Hne H1 H2.
  unfold train. cbn [train_loop]. unfold train_batch.
  cbn [params meters writer]. rewrite Hf.
  unfold record_batch. apply Z.eqb_neq in Hns. rewrite Hns. cbn [negb].
  assert (Hraise : Loss.train_uncertain args branches_out pred_speed
                     log_var_control log_var_speed (speed b) (target b)
                     (mask b) = Raise RuntimeError).
  { unfold Loss.train_uncertain, Tensor.sub, Tensor.zip.
    destruct (Tensor.broadcast_dim (Tensor.rows branches_out)
                                   (Tensor.rows (target b))) as [r|e] eqn:Hr.
    - rewrite bind_ok. unfold Tensor.broadcast_dim.
      apply Nat.eqb_neq in Hne, H1, H2. rewrite Hne, H1, H2. reflexivity.
    - unfold Tensor.broadcast_dim in Hr.
      repeat match type of Hr with
             | (if ?c then _ else _) = _ => destruct c; try discriminate Hr
             end.
      injection Hr as <-. reflexivity. }
  rewrite Hraise. reflexivity.
Qed.

End TrainRuns.

Lemma train_shape_mismatch_witness :
  Runner.train wide_model keep_params sample_args Tensor.MSELoss
               [wide_target_batch] tt 0 []
  = (tt, [], Raise RuntimeError).
Proof.
  apply (train_shape_mismatch wide_model keep_params sample_args
           Tensor.MSELoss wide_target_batch [] tt 0 []
           (Tensor.const 1 3 0) (one 0) (one 0) (one 0));
    first [reflexivity | discriminate].
Defined.

(** ** File names and float comparison *)

Section NameFacts.
Local Open Scope string_scope.








End NameFacts.

(** ** The orchestrator across epochs and invocations *)

Section OrchestratorRuns.
Import Orchestrator.
Context {Model Optim : Type}.
Variable train : Z -> Z -> Model -> Optim -> result (Model * Optim).
Variable evaluate : Z -> Model -> result float.
Variable args : Args.t.

#[local] Abbreviation State := (@State Model Optim).
#[local] Abbreviation Checkpoint := (@Checkpoint Model Optim).










Lemma trains_cons_other (ev : @Event Model Optim) (evs : list Event) :
  trains [ev] = [] -> trains (ev :: evs) = trains evs.
Proof. intros H. change (ev :: evs) with ([ev] ++ evs). now rewrite trains_app, H. Qed.




End OrchestratorRuns.







